(** * mathpix-go: typed request dispatch and error classification

    A shallow embedding of the dispatch layer of the mathpix-go client
    (errors, token request builders, usage request, endpoint descriptors,
    client options and the generic [call]), with the properties of the
    specification stated and settled over it. *)

From Stdlib Require Import String Ascii List NArith ZArith Bool Lia.
From Stdlib Require DecimalString.
Import ListNotations.
Open Scope string_scope.
Open Scope Z_scope.

(* ================================================================= *)
(** ** Errors (errors.go) *)

Module Errors.

(** [type ErrorID string] *)
Definition ErrorID := string.

Definition ErrHTTPUnauthorized : ErrorID := "http_unauthorized".
Definition ErrHTTPMaxRequests : ErrorID := "http_max_requests".
Definition ErrJSONSyntax : ErrorID := "json_syntax".
Definition ErrImageMissing : ErrorID := "image_missing".
Definition ErrImageDownload : ErrorID := "image_download_error".
Definition ErrImageDecode : ErrorID := "image_decode_error".
Definition ErrImageNoContent : ErrorID := "image_no_content".
Definition ErrImageNotSupported : ErrorID := "image_not_supported".
Definition ErrImageMaxSize : ErrorID := "image_max_size".
Definition ErrStrokesMissing : ErrorID := "strokes_missing".
Definition ErrStrokesSyntaxError : ErrorID := "strokes_syntax_error".
Definition ErrStrokesNoContent : ErrorID := "strokes_no_content".
Definition ErrOptsBadCallback : ErrorID := "opts_bad_callback".
Definition ErrOptsUnknownOCR : ErrorID := "opts_unknown_ocr".
Definition ErrOptsUnknownFormat : ErrorID := "opts_unknown_format".
Definition ErrOptsNumberRequired : ErrorID := "opts_number_required".
Definition ErrOptsValueOutOfRange : ErrorID := "opts_value_out_of_range".
Definition ErrPDFEncrypted : ErrorID := "pdf_encrypted".
Definition ErrPDFUnknownID : ErrorID := "pdf_unknown_id".
Definition ErrPDFMissing : ErrorID := "pdf_missing".
Definition ErrPDFPageLimitExceeded : ErrorID := "pdf_page_limit_exceeded".
Definition ErrMathConfidence : ErrorID := "math_confidence".
Definition ErrMathSyntax : ErrorID := "math_syntax".
Definition ErrBatchUnknownID : ErrorID := "batch_unknown_id".
Definition ErrSysException : ErrorID := "sys_exception".
Definition ErrSysRequestTooLarge : ErrorID := "sys_request_too_large".

(** [APIError]: [Message] and [Detail] are [*string], nil is [None]. *)
Record APIError := mkAPIError {
  ID : ErrorID;
  Message : option string;
  Detail : option string
}.

(** [ErrorResponse]: the wrapper whose only field is tagged [json:"error"]. *)
Record ErrorResponse := mkErrorResponse {
  Error_ : APIError
}.

(** [func (e ErrorID) String() string] *)
Definition ErrorID_String (e : ErrorID) : string := e.

(** [func (e ErrorID) HTTPStatusCode() int] *)
Definition HTTPStatusCode (e : ErrorID) : Z :=
  if String.eqb e ErrHTTPUnauthorized then 401
  else if String.eqb e ErrHTTPMaxRequests then 429
  else 200.

(** [func (e *APIError) Error() string]; [fmt.Sprintf("%s: %s", a, b)] is
    the concatenation of [a], the two characters colon and space, and [b]. *)
Definition Error (e : APIError) : string :=
  match Message e with
  | None => ErrorID_String (ID e)
  | Some m => ErrorID_String (ID e) ++ ": " ++ m
  end.

(** The case list of the [switch] in [isErrorID], in source order. *)
Definition errorIDCases : list ErrorID :=
  [ ErrHTTPUnauthorized; ErrHTTPMaxRequests; ErrJSONSyntax;
    ErrImageMissing; ErrImageDownload; ErrImageDecode; ErrImageNoContent;
    ErrImageNotSupported; ErrImageMaxSize;
    ErrStrokesMissing; ErrStrokesSyntaxError; ErrStrokesNoContent;
    ErrOptsBadCallback; ErrOptsUnknownOCR; ErrOptsUnknownFormat;
    ErrOptsNumberRequired; ErrOptsValueOutOfRange;
    ErrPDFEncrypted; ErrPDFUnknownID; ErrPDFMissing; ErrPDFPageLimitExceeded;
    ErrMathConfidence; ErrMathSyntax;
    ErrBatchUnknownID; ErrSysException; ErrSysRequestTooLarge ].

(** [func isErrorID(in ErrorID) bool]: true on a listed case, false on
    [default]. *)
Definition isErrorID (i : ErrorID) : bool :=
  existsb (String.eqb i) errorIDCases.

End Errors.

(* ================================================================= *)
(** ** App-token requests (tokens.go) *)

Module Tokens.

(** [AppTokenRequest]; [Expires] is an [int64], only ever compared and
    assigned, so no arithmetic can wrap. *)
Record AppTokenRequest := mkAppTokenRequest {
  IncludeStrokesSessionID : bool;
  Expires : Z
}.

(** [func NewAppTokenRequest() *AppTokenRequest] *)
Definition NewAppTokenRequest : AppTokenRequest :=
  {| IncludeStrokesSessionID := false; Expires := 300 |}.

(** [func (r *AppTokenRequest) WithStrokesSession() *AppTokenRequest] *)
Definition WithStrokesSession (r : AppTokenRequest) : AppTokenRequest :=
  let e := Expires r in
  {| IncludeStrokesSessionID := true;
     Expires := if 300 <? e then 300 else e |}.

(** [func (r *AppTokenRequest) WithExpiration(seconds int64) *AppTokenRequest] *)
Definition WithExpiration (seconds : Z) (r : AppTokenRequest)
  : AppTokenRequest :=
  let seconds' :=
    if IncludeStrokesSessionID r then
      if seconds <? 30 then 30
      else if 300 <? seconds then 300
      else seconds
    else
      if seconds <? 30 then 30
      else if 43200 <? seconds then 43200
      else seconds in
  {| IncludeStrokesSessionID := IncludeStrokesSessionID r;
     Expires := seconds' |}.

(** One builder call, and a finite chain of them applied left to right. *)
Inductive BuilderCall :=
| CallWithStrokesSession
| CallWithExpiration (seconds : Z).

Definition applyCall (r : AppTokenRequest) (c : BuilderCall)
  : AppTokenRequest :=
  match c with
  | CallWithStrokesSession => WithStrokesSession r
  | CallWithExpiration s => WithExpiration s r
  end.

Definition applyCalls (cs : list BuilderCall) (r : AppTokenRequest)
  : AppTokenRequest :=
  fold_left applyCall cs r.

(** The clamp of [x] into the closed interval from [lo] to [hi]. *)
Definition clamp (lo hi x : Z) : Z := Z.max lo (Z.min hi x).

(** The bounds the field comments of [AppTokenRequest] document. *)
Definition inRange (r : AppTokenRequest) : Prop :=
  30 <= Expires r <= 43200 /\
  (IncludeStrokesSessionID r = true -> Expires r <= 300).

End Tokens.

(* ================================================================= *)
(** ** JSON texts and values (the part of encoding/json that [call] uses)

    [json.NewDecoder(r).Decode(&v)] reads the next JSON value from the
    stream and stores it in [v].  The reading is [nextValue] below, the
    storing is an instance of [Unmarshal] for the type of [v]. *)

Module JSON.

#[warnings="-register-all"]
Inductive value :=
| JNull
| JBool (b : bool)
| JNumber (literal : string)
| JString (s : string)
| JArray (elems : list value)
| JObject (members : list (string * value)).

(** The errors of the decoder: [io.EOF] on a stream with no value, a
    syntax error on a malformed text, and [*json.UnmarshalTypeError] when a
    JSON value does not fit the Go field it is stored in. *)
Inductive DecodeError :=
| EOF
| SyntaxError
| UnmarshalTypeError (field : string).

Definition chr (n : N) : ascii := ascii_of_N n.
Definition code (c : ascii) : N := N_of_ascii c.

Definition isSpace (c : ascii) : bool :=
  let n := code c in
  (N.eqb n 32 || N.eqb n 9 || N.eqb n 10 || N.eqb n 13)%bool.

Definition isDigit (c : ascii) : bool :=
  let n := code c in (N.leb 48 n && N.leb n 57)%bool.

Fixpoint skipSpace (s : list ascii) : list ascii :=
  match s with
  | c :: r => if isSpace c then skipSpace r else s
  | [] => []
  end.

Fixpoint stringOf (l : list ascii) : string :=
  match l with
  | [] => EmptyString
  | c :: r => String c (stringOf r)
  end.

Definition hexVal (c : ascii) : option N :=
  let n := code c in
  if (N.leb 48 n && N.leb n 57)%bool then Some (n - 48)%N
  else if (N.leb 97 n && N.leb n 102)%bool then Some (n - 87)%N
  else if (N.leb 65 n && N.leb n 70)%bool then Some (n - 55)%N
  else None.

Definition hex4 (s : list ascii) : option (N * list ascii) :=
  match s with
  | a :: b :: c :: d :: r =>
      match hexVal a, hexVal b, hexVal c, hexVal d with
      | Some x, Some y, Some z, Some w =>
          Some (((x * 16 + y) * 16 + z) * 16 + w, r)%N
      | _, _, _, _ => None
      end
  | _ => None
  end.

(** UTF-8 encoding of a code point. *)
Definition utf8 (cp : N) : list ascii :=
  if N.ltb cp 128 then [chr cp]
  else if N.ltb cp 2048 then
    [chr (192 + cp / 64); chr (128 + cp mod 64)]%N
  else if N.ltb cp 65536 then
    [chr (224 + cp / 4096); chr (128 + (cp / 64) mod 64);
     chr (128 + cp mod 64)]%N
  else
    [chr (240 + cp / 262144); chr (128 + (cp / 4096) mod 64);
     chr (128 + (cp / 64) mod 64); chr (128 + cp mod 64)]%N.

Definition isHighSurrogate (n : N) : bool :=
  (N.leb 55296 n && N.ltb n 56320)%bool.
Definition isLowSurrogate (n : N) : bool :=
  (N.leb 56320 n && N.ltb n 57344)%bool.

(** A [\u] escape, the four hex digits already read as [hi]: a surrogate
    pair is combined, a lone surrogate becomes U+FFFD. *)
Definition unescapeU (hi : N) (r : list ascii) : list ascii * list ascii :=
  if isHighSurrogate hi then
    match r with
    | b :: u :: r' =>
        if (N.eqb (code b) 92 && N.eqb (code u) 117)%bool then
          match hex4 r' with
          | Some (lo, r'') =>
              if isLowSurrogate lo
              then (utf8 (65536 + (hi - 55296) * 1024 + (lo - 56320))%N, r'')
              else (utf8 65533, r)
          | None => (utf8 65533, r)
          end
        else (utf8 65533, r)
    | _ => (utf8 65533, r)
    end
  else if isLowSurrogate hi then (utf8 65533, r)
  else (utf8 hi, r).

(** The characters of a string literal after its opening quote, up to and
    including the closing quote.  Control characters are refused; bytes
    from 128 up are copied as they are. *)
Fixpoint stringBody (fuel : nat) (acc : list ascii) (s : list ascii)
  : option (string * list ascii) :=
  match fuel with
  | O => None
  | S fuel' =>
      match s with
      | [] => None
      | c :: r =>
          let n := code c in
          if N.eqb n 34 then Some (stringOf (rev acc), r)
          else if N.eqb n 92 then
            match r with
            | e :: r' =>
                let m := code e in
                if N.eqb m 34 then stringBody fuel' (chr 34 :: acc) r'
                else if N.eqb m 92 then stringBody fuel' (chr 92 :: acc) r'
                else if N.eqb m 47 then stringBody fuel' (chr 47 :: acc) r'
                else if N.eqb m 98 then stringBody fuel' (chr 8 :: acc) r'
                else if N.eqb m 102 then stringBody fuel' (chr 12 :: acc) r'
                else if N.eqb m 110 then stringBody fuel' (chr 10 :: acc) r'
                else if N.eqb m 114 then stringBody fuel' (chr 13 :: acc) r'
                else if N.eqb m 116 then stringBody fuel' (chr 9 :: acc) r'
                else if N.eqb m 117 then
                  match hex4 r' with
                  | Some (hi, r'') =>
                      let '(bytes, rest) := unescapeU hi r'' in
                      stringBody fuel' (rev bytes ++ acc) rest
                  | None => None
                  end
                else None
            | [] => None
            end
          else if N.ltb n 32 then None
          else stringBody fuel' (c :: acc) r
      end
  end.

Fixpoint spanDigits (s : list ascii) : list ascii * list ascii :=
  match s with
  | c :: r =>
      if isDigit c then let '(d, r') := spanDigits r in (c :: d, r')
      else ([], s)
  | [] => ([], [])
  end.

(** A number literal: an optional minus, an integer part (a lone zero, or
    digits starting with a non-zero one), an optional fraction, an optional
    exponent.  The literal ends where the grammar can go no further. *)
Definition numberLit (s : list ascii) : option (string * list ascii) :=
  let '(sign, s1) :=
    match s with
    | c :: r => if N.eqb (code c) 45 then ([c], r) else ([], s)
    | [] => ([], s)
    end in
  let '(int, s2) :=
    match s1 with
    | c :: r => if N.eqb (code c) 48 then ([c], r) else spanDigits s1
    | [] => ([], s1)
    end in
  match int with
  | [] => None
  | _ :: _ =>
        let frac :=
          match s2 with
          | c :: r =>
              if N.eqb (code c) 46 then
                let '(f, r') := spanDigits r in
                match f with
                | [] => None
                | _ => Some (c :: f, r')
                end
              else Some ([], s2)
          | [] => Some ([], s2)
          end in
        match frac with
        | None => None
        | Some (f, s3) =>
            let expo :=
              match s3 with
              | c :: r =>
                  if (N.eqb (code c) 101 || N.eqb (code c) 69)%bool then
                    let '(sg, r1) :=
                      match r with
                      | x :: r0 =>
                          if (N.eqb (code x) 43 || N.eqb (code x) 45)%bool
                          then ([x], r0) else ([], r)
                      | [] => ([], r)
                      end in
                    let '(e, r2) := spanDigits r1 in
                    match e with
                    | [] => None
                    | _ => Some (c :: sg ++ e, r2)
                    end
                  else Some ([], s3)
              | [] => Some ([], s3)
              end in
            match expo with
            | None => None
            | Some (e, s4) => Some (stringOf (sign ++ int ++ f ++ e), s4)
            end
        end
  end.

Fixpoint dropPrefix (p s : list ascii) : option (list ascii) :=
  match p, s with
  | [], _ => Some s
  | a :: p', b :: s' => if Ascii.eqb a b then dropPrefix p' s' else None
  | _ :: _, [] => None
  end.

(** Recursive descent over values, the elements of an array after its
    opening bracket and the members of an object after its opening brace.
    The fuel bounds the depth of the descent; [nextValue] gives twice the
    length of the text and two. *)
Fixpoint parseValue (fuel : nat) (s : list ascii)
  : option (value * list ascii) :=
  match fuel with
  | O => None
  | S fuel' =>
      match skipSpace s with
      | [] => None
      | c :: r =>
          let n := code c in
          if N.eqb n 123 then
            match skipSpace r with
            | c' :: r' =>
                if N.eqb (code c') 125 then Some (JObject [], r')
                else
                  match parseMembers fuel' [] (c' :: r') with
                  | Some (ms, r'') => Some (JObject ms, r'')
                  | None => None
                  end
            | [] => None
            end
          else if N.eqb n 91 then
            match skipSpace r with
            | c' :: r' =>
                if N.eqb (code c') 93 then Some (JArray [], r')
                else
                  match parseElems fuel' [] (c' :: r') with
                  | Some (es, r'') => Some (JArray es, r'')
                  | None => None
                  end
            | [] => None
            end
          else if N.eqb n 34 then
            match stringBody (S (length r)) [] r with
            | Some (str, r') => Some (JString str, r')
            | None => None
            end
          else if N.eqb n 116 then
            option_map (pair (JBool true))
              (dropPrefix (list_ascii_of_string "true") (c :: r))
          else if N.eqb n 102 then
            option_map (pair (JBool false))
              (dropPrefix (list_ascii_of_string "false") (c :: r))
          else if N.eqb n 110 then
            option_map (pair JNull)
              (dropPrefix (list_ascii_of_string "null") (c :: r))
          else
            match numberLit (c :: r) with
            | Some (lit, r') => Some (JNumber lit, r')
            | None => None
            end
      end
  end
with parseElems (fuel : nat) (acc : list value) (s : list ascii)
  : option (list value * list ascii) :=
  match fuel with
  | O => None
  | S fuel' =>
      match parseValue fuel' s with
      | Some (v, r) =>
          match skipSpace r with
          | c :: r' =>
              if N.eqb (code c) 44 then parseElems fuel' (v :: acc) r'
              else if N.eqb (code c) 93 then Some (rev (v :: acc), r')
              else None
          | [] => None
          end
      | None => None
      end
  end
with parseMembers (fuel : nat) (acc : list (string * value)) (s : list ascii)
  : option (list (string * value) * list ascii) :=
  match fuel with
  | O => None
  | S fuel' =>
      match skipSpace s with
      | q :: r =>
          if N.eqb (code q) 34 then
            match stringBody (S (length r)) [] r with
            | Some (k, r1) =>
                match skipSpace r1 with
                | c :: r2 =>
                    if N.eqb (code c) 58 then
                      match parseValue fuel' r2 with
                      | Some (v, r3) =>
                          match skipSpace r3 with
                          | d :: r4 =>
                              if N.eqb (code d) 44
                              then parseMembers fuel' ((k, v) :: acc) r4
                              else if N.eqb (code d) 125
                              then Some (rev ((k, v) :: acc), r4)
                              else None
                          | [] => None
                          end
                      | None => None
                      end
                    else None
                | [] => None
                end
            | None => None
            end
          else None
      | [] => None
      end
  end.

(** The next value of a stream: [io.EOF] when only white space is left, a
    syntax error when the text is not a JSON value.  What follows the value
    is left unread. *)
Definition nextValue (r : string) : DecodeError + value :=
  let s := list_ascii_of_string r in
  match skipSpace s with
  | [] => inl EOF
  | _ =>
      match parseValue (2 * length s + 2) s with
      | Some (v, _) => inr v
      | None => inl SyntaxError
      end
  end.

(** A Go type that [Decode] can store a JSON value in: its zero value and
    the store itself, which returns the updated Go value and the first
    type error met, if any (a type error does not stop the store). *)
Class Unmarshal (T : Type) := {
  zero : T;
  unmarshal : value -> T -> T * option DecodeError
}.

(** [json.NewDecoder(r).Decode(&v)] *)
Definition Decode {T} `{Unmarshal T} (r : string) (v : T)
  : T * option DecodeError :=
  match nextValue r with
  | inl e => (v, Some e)
  | inr j => unmarshal j v
  end.

(** ASCII lower case, and the case-insensitive match of an object key
    against a field name that the decoder falls back to when no field
    matches exactly (the decoder also folds the long s and the Kelvin
    sign, which no field name here contains). *)
Definition lower (c : ascii) : ascii :=
  let n := code c in
  if (N.leb 65 n && N.leb n 90)%bool then chr (n + 32) else c.

Fixpoint foldEq (a b : string) : bool :=
  match a, b with
  | EmptyString, EmptyString => true
  | String x a', String y b' => (Ascii.eqb (lower x) (lower y) && foldEq a' b')%bool
  | _, _ => false
  end.

(** The field an object key selects among the JSON names of a struct. *)
Definition findField (names : list string) (key : string) : option string :=
  match find (String.eqb key) names with
  | Some f => Some f
  | None => find (foldEq key) names
  end.

(** Keep the first error. *)
Definition saveError (saved new : option DecodeError) : option DecodeError :=
  match saved with
  | Some _ => saved
  | None => new
  end.

(** Store into a field of kind string: a string is stored, null has no
    effect, anything else is a type error and leaves the field. *)
Definition storeString (field : string) (j : value) (old : string)
  : string * option DecodeError :=
  match j with
  | JString s => (s, None)
  | JNull => (old, None)
  | _ => (old, Some (UnmarshalTypeError field))
  end.

(** Store into a field of type [*string]: null sets nil; otherwise a nil
    pointer is allocated first, then the pointee is stored into. *)
Definition storeStringPtr (field : string) (j : value) (old : option string)
  : option string * option DecodeError :=
  match j with
  | JNull => (None, None)
  | _ =>
      let cur := match old with Some s => s | None => "" end in
      let '(s, e) := storeString field j cur in (Some s, e)
  end.

(** A decimal literal as an integer, when it is one (no fraction, no
    exponent). *)
Fixpoint digitsVal (acc : Z) (s : list ascii) : option Z :=
  match s with
  | [] => Some acc
  | c :: r =>
      if isDigit c then digitsVal (acc * 10 + Z.of_N (code c - 48)) r
      else None
  end.

Definition intLit (lit : string) : option Z :=
  match list_ascii_of_string lit with
  | [] => None
  | c :: r =>
      if N.eqb (code c) 45
      then match r with
           | [] => None
           | _ => option_map Z.opp (digitsVal 0 r)
           end
      else digitsVal 0 (c :: r)
  end.

(** Store into a field of kind int64. *)
Definition storeInt64 (field : string) (j : value) (old : Z)
  : Z * option DecodeError :=
  match j with
  | JNull => (old, None)
  | JNumber lit =>
      match intLit lit with
      | Some n =>
          if ((- 2 ^ 63 <=? n) && (n <? 2 ^ 63))%bool then (n, None)
          else (old, Some (UnmarshalTypeError field))
      | None => (old, Some (UnmarshalTypeError field))
      end
  | _ => (old, Some (UnmarshalTypeError field))
  end.

End JSON.

(* ================================================================= *)
(** ** The platform: net/url, net/http, context, time, log/slog

    What the client takes from the Go standard library.  Requests and
    responses are records; the rest is an interface whose members are the
    library calls the source makes. *)

Module Net.

Definition MethodGet : string := "GET".
Definition MethodPost : string := "POST".
Definition StatusOK : Z := 200.
Definition StatusBadRequest : Z := 400.

(** [http.Header], with [Get] (the empty string when absent) and [Set]
    (replace or add).  Keys are compared as written. *)
Definition Header := list (string * string).

Fixpoint Header_Get (h : Header) (key : string) : string :=
  match h with
  | [] => ""
  | (k, v) :: r => if String.eqb k key then v else Header_Get r key
  end.

Fixpoint Header_Set (h : Header) (key val : string) : Header :=
  match h with
  | [] => [(key, val)]
  | (k, v) :: r =>
      if String.eqb k key then (key, val) :: r
      else (k, v) :: Header_Set r key val
  end.

(** [http.Request]: verb, URL, query parameters, headers, body. *)
Record Request := mkRequest {
  Method : string;
  RequestURL : string;
  Query : list (string * string);
  ReqHeader : Header;
  ReqBody : string
}.

(** [http.Response]: the status code and the bytes of the body. *)
Record Response := mkResponse {
  StatusCode : Z;
  Body : string
}.

Definition setHeader (req : Request) (key val : string) : Request :=
  {| Method := Method req; RequestURL := RequestURL req; Query := Query req;
     ReqHeader := Header_Set (ReqHeader req) key val;
     ReqBody := ReqBody req |}.

Class Platform := {
  (** [context.Context] *)
  Context : Type;
  (** [time.Time], its zero test and its form in a query string *)
  Time : Type;
  Time_IsZero : Time -> bool;
  Time_String : Time -> string;
  (** [url.URL], [url.Parse], and the methods [JoinPath] and [String] *)
  URL : Type;
  url_Parse : string -> option URL;
  JoinPath : URL -> list string -> URL;
  URL_String : URL -> string;
  (** [slog.Logger] *)
  Logger : Type;
  (** the error of a failed round trip (refused, timed out, cancelled) *)
  TransportError : Type;
  (** [http.Client]: [Do] answers a request under its context with a
      response or a transport error *)
  HTTPClient : Type;
  Do : HTTPClient -> Context -> Request -> TransportError + Response;
  (** [http.DefaultClient] *)
  DefaultClient : HTTPClient
}.

End Net.

(* ================================================================= *)
(** ** The payload encoder (github.com/ggicci/httpin) *)

Module Encoder.
Import Net.

(** Modelled from the spec: the package httpin, whose
    [NewRequestWithContext] builds the wire request from a request value
    and the directives of its fields, is not part of the sources.  The
    directives are those of the contract of the Payload Encoder: a query
    parameter, optionally required; a header addition; the serialized
    body. *)
Inductive Directive :=
| DQuery (name : string) (required : bool)
| DHeader (name : string)
| DBody.

(** One field of a request value as the encoder sees it: its directive,
    whether its value is the zero value of its type, and its wire form. *)
Record Field := mkField {
  directive : Directive;
  isZero : bool;
  wire : string
}.

(** A request type describes its fields for encoding.  There is none to
    describe where the encoder, which reflects on the value behind a
    pointer, meets a nil pointer: it panics there. *)
Class Describe (R : Type) := {
  fields : R -> option (list Field)
}.

(** The syntax of the struct tag [in] of httpin: directives are separated
    by semicolons; a directive is a name, then, after an equals sign, its
    arguments separated by commas. *)
Fixpoint split (sep : ascii) (s : string) : list string :=
  match s with
  | EmptyString => [EmptyString]
  | String c r =>
      if Ascii.eqb c sep then EmptyString :: split sep r
      else match split sep r with
           | h :: t => String c h :: t
           | [] => [String c EmptyString]
           end
  end.

Fixpoint cutAt (sep : ascii) (s : string) : string * option string :=
  match s with
  | EmptyString => (EmptyString, None)
  | String c r =>
      if Ascii.eqb c sep then (EmptyString, Some r)
      else let '(a, b) := cutAt sep r in (String c a, b)
  end.

Record TagDirective := mkTagDirective {
  dirName : string;
  dirArgs : list string
}.

Definition parseDirective (s : string) : TagDirective :=
  let '(n, rest) := cutAt "=" s in
  {| dirName := n;
     dirArgs := match rest with Some a => split "," a | None => [] end |}.

Definition parseTag (tag : string) : list TagDirective :=
  map parseDirective (split ";" tag).

(** A struct field with its tag as the encoder sees it: a [query] or
    [header] directive encodes under its first argument, [body] is the
    serialized body, and the field is required when one of its directives
    is named [required]. *)
Definition taggedField (tag : string) (zero : bool) (w : string)
  : list Field :=
  let ds := parseTag tag in
  let required := existsb (fun d => String.eqb (dirName d) "required") ds in
  flat_map
    (fun d =>
       if String.eqb (dirName d) "query" then
         match dirArgs d with
         | n :: _ => [{| directive := DQuery n required; isZero := zero;
                         wire := w |}]
         | [] => []
         end
       else if String.eqb (dirName d) "header" then
         match dirArgs d with
         | n :: _ => [{| directive := DHeader n; isZero := zero; wire := w |}]
         | [] => []
         end
       else if String.eqb (dirName d) "body" then
         [{| directive := DBody; isZero := zero; wire := w |}]
       else [])
    ds.

(** The caller-input error of the encoder. *)
Inductive EncodeError :=
| ErrMissingField (name : string).

(** Modelled from the spec: one field added to the request under
    construction; a required query parameter left at its zero value is a
    caller-input error. *)
Definition encodeField (req : Request) (f : Field) : EncodeError + Request :=
  match directive f with
  | DQuery name required =>
      if (required && isZero f)%bool then inl (ErrMissingField name)
      else inr {| Method := Method req; RequestURL := RequestURL req;
                  Query := Query req ++ [(name, wire f)];
                  ReqHeader := ReqHeader req; ReqBody := ReqBody req |}
  | DHeader name => inr (setHeader req name (wire f))
  | DBody =>
      inr {| Method := Method req; RequestURL := RequestURL req;
             Query := Query req; ReqHeader := ReqHeader req;
             ReqBody := wire f |}
  end.

Fixpoint encodeFields (req : Request) (fs : list Field)
  : EncodeError + Request :=
  match fs with
  | [] => inr req
  | f :: r =>
      match encodeField req f with
      | inl e => inl e
      | inr req' => encodeFields req' r
      end
  end.

(** A pointer to a request value: the encoder panics on nil. *)
#[export] Instance Describe_ptr {R} `{Describe R} : Describe (option R) := {
  fields r := match r with Some x => fields x | None => None end
}.

(** Modelled from the spec: [httpin.NewRequestWithContext(ctx, method, url,
    input)] starts from the bare request for the verb and the URL and adds
    the fields of the request value in order.  It performs no I/O.  The
    result is none when the encoder panics. *)
Definition NewRequestWithContext {R} `{Describe R}
    (method url : string) (input : R) : option (EncodeError + Request) :=
  match fields input with
  | None => None
  | Some fs =>
      Some (encodeFields {| Method := method; RequestURL := url; Query := [];
                            ReqHeader := []; ReqBody := "" |}
                         fs)
  end.

(** [json.Marshal] of a request body, for the directive [body=json]. *)
Class Marshal (X : Type) := {
  marshal : X -> string
}.

(** Modelled from the spec: the field [Payload *X] tagged
    [in:"body=json"] as the encoder (httpin, not part of the sources) sees
    it: the serialized body; nil is the zero value and marshals to
    [null]. *)
Definition bodyField {X} `{Marshal X} (p : option X) : Field :=
  match p with
  | None => {| directive := DBody; isZero := true; wire := "null" |}
  | Some x => {| directive := DBody; isZero := false; wire := marshal x |}
  end.

End Encoder.

(* ================================================================= *)
(** ** The client: schema, endpoints, options, [call] and the facade *)

Module Mathpix.
Import Errors Tokens JSON Net Encoder.

(** *** Decoding the error envelope and the token response *)

(** A Go pointer [*T] as target: null sets nil; otherwise a nil pointer is
    allocated (the zero [T]) before the value is stored in the pointee. *)
#[export] Instance Unmarshal_ptr {T} `{Unmarshal T} : Unmarshal (option T) := {
  zero := None;
  unmarshal j old :=
    match j with
    | JNull => (None, None)
    | _ =>
        let cur := match old with Some x => x | None => zero end in
        let '(x, e) := unmarshal j cur in (Some x, e)
    end
}.

(** A struct as target: the members of an object are stored one by one, in
    order, by [member]; null has no effect; any other value is a type
    error. *)
Definition unmarshalStruct {T}
    (member : T -> string -> value -> T * option DecodeError)
    (j : value) (old : T) : T * option DecodeError :=
  match j with
  | JNull => (old, None)
  | JObject ms =>
      fold_left
        (fun (acc : T * option DecodeError) (kv : string * value) =>
           let '(x, e) := member (fst acc) (fst kv) (snd kv) in
           (x, saveError (snd acc) e))
        ms (old, None)
  | _ => (old, Some (UnmarshalTypeError ""))
  end.

(** The fields of [APIError] by their JSON names [id], [message],
    [detail]; keys that select no field are skipped. *)
Definition APIError_member (v : APIError) (key : string) (j : value)
  : APIError * option DecodeError :=
  match findField ["id"; "message"; "detail"] key with
  | Some f =>
      if String.eqb f "id" then
        let '(s, e) := storeString f j (ID v) in
        ({| ID := s; Message := Message v; Detail := Detail v |}, e)
      else if String.eqb f "message" then
        let '(s, e) := storeStringPtr f j (Message v) in
        ({| ID := ID v; Message := s; Detail := Detail v |}, e)
      else
        let '(s, e) := storeStringPtr f j (Detail v) in
        ({| ID := ID v; Message := Message v; Detail := s |}, e)
  | None => (v, None)
  end.

#[export] Instance Unmarshal_APIError : Unmarshal APIError := {
  zero := {| ID := ""; Message := None; Detail := None |};
  unmarshal := unmarshalStruct APIError_member
}.

(** [ErrorResponse] as a target: its one field, of struct type, is
    selected by the key [error]. *)
Definition ErrorResponse_member (v : ErrorResponse) (key : string)
    (j : value) : ErrorResponse * option DecodeError :=
  match findField ["error"] key with
  | Some _ =>
      let '(a, e) := unmarshal j (Errors.Error_ v) in
      ({| Errors.Error_ := a |}, e)
  | None => (v, None)
  end.

#[export] Instance Unmarshal_ErrorResponse : Unmarshal ErrorResponse := {
  zero := {| Errors.Error_ := zero |};
  unmarshal := unmarshalStruct ErrorResponse_member
}.

(** [AppTokenResponse]; the unexported [headers] field, tagged [json:"-"],
    is no target of the decoder and is left out. *)
Record AppTokenResponse := mkAppTokenResponse {
  AppToken : string;
  StrokesSessionID : string;
  AppTokenExpiresAt : Z
}.

Definition AppTokenResponse_member (v : AppTokenResponse) (key : string)
    (j : value) : AppTokenResponse * option DecodeError :=
  match findField ["app_token"; "strokes_session_id"; "app_token_expires_at"]
                  key with
  | Some f =>
      if String.eqb f "app_token" then
        let '(s, e) := storeString f j (AppToken v) in
        ({| AppToken := s; StrokesSessionID := StrokesSessionID v;
            AppTokenExpiresAt := AppTokenExpiresAt v |}, e)
      else if String.eqb f "strokes_session_id" then
        let '(s, e) := storeString f j (StrokesSessionID v) in
        ({| AppToken := AppToken v; StrokesSessionID := s;
            AppTokenExpiresAt := AppTokenExpiresAt v |}, e)
      else
        let '(n, e) := storeInt64 f j (AppTokenExpiresAt v) in
        ({| AppToken := AppToken v; StrokesSessionID := StrokesSessionID v;
            AppTokenExpiresAt := n |}, e)
  | None => (v, None)
  end.

#[export] Instance Unmarshal_AppTokenResponse : Unmarshal AppTokenResponse := {
  zero := {| AppToken := ""; StrokesSessionID := ""; AppTokenExpiresAt := 0 |};
  unmarshal := unmarshalStruct AppTokenResponse_member
}.

(** *** Request payloads *)

(** The payload structs whose single field is [Payload *X] tagged
    [in:"body=json"]. *)
Record bodyPayload (X : Type) := mkBodyPayload {
  Payload : option X
}.
Arguments mkBodyPayload {X} _.
Arguments Payload {X} _.

#[export] Instance Describe_bodyPayload {X} `{Marshal X}
  : Describe (bodyPayload X) := {
  fields p := Some [bodyField (Payload p)]
}.

(** [type getBatchPayload struct{}] *)
Inductive getBatchPayload := mkGetBatchPayload.

#[export] Instance Describe_getBatchPayload : Describe getBatchPayload := {
  fields _ := Some []
}.

(** [ResultRequest] and its payload, whose field carries no directive. *)
Record ResultRequest := mkResultRequest {
  PDFID : string
}.

Record resultRequestPayload := mkResultRequestPayload {
  ResultRequest_ : ResultRequest
}.

#[export] Instance Describe_resultRequestPayload
  : Describe resultRequestPayload := {
  fields _ := Some []
}.

(** [json.Marshal] of an [AppTokenRequest]: both fields are [omitempty]. *)
Definition quote (s : string) : string :=
  String (chr 34) (s ++ String (chr 34) "").

Definition Z_String (n : Z) : string :=
  DecimalString.NilZero.string_of_int (Z.to_int n).

#[export] Instance Marshal_AppTokenRequest : Marshal AppTokenRequest := {
  marshal r :=
    let a :=
      if IncludeStrokesSessionID r
      then [quote "include_strokes_session_id" ++ ":true"] else [] in
    let b :=
      if Z.eqb (Expires r) 0 then []
      else [quote "expires" ++ ":" ++ Z_String (Expires r)] in
    "{" ++ String.concat "," (a ++ b) ++ "}"
}.

Definition appTokenPayload := bodyPayload AppTokenRequest.

Section WithPlatform.
Context `{Platform}.

(** [RequestUsage]; the tags of its fields are those of the source, read
    in the syntax of the encoder: in [query=group_by,required] the comma
    makes [required] a second argument of [query], not a directive. *)
Record RequestUsage := mkRequestUsage {
  FromDate : Time;
  ToDate : Time;
  GroupBy : string;
  Timespan : string
}.

Definition RequestUsage_fields (r : RequestUsage) : list Field :=
  (taggedField "query=from_date"
     (Time_IsZero (FromDate r)) (Time_String (FromDate r))
   ++ taggedField "query=to_date"
        (Time_IsZero (ToDate r)) (Time_String (ToDate r))
   ++ taggedField "query=group_by,required"
        (String.eqb (GroupBy r) "") (GroupBy r)
   ++ taggedField "query=timespan,required"
        (String.eqb (Timespan r) "") (Timespan r))%list.

#[export] Instance Describe_RequestUsage : Describe RequestUsage := {
  fields r := Some (RequestUsage_fields r)
}.

(** [usagePayload]: the envelope of the usage request.  Its field
    [Payload *RequestUsage] has no [in] directive of its own. *)
Record usagePayload := mkUsagePayload {
  UsagePayload : option RequestUsage
}.

(** The encoder descends into the struct behind [Payload] and applies the
    directives of its fields; a nil [Payload] makes it panic. *)
#[export] Instance Describe_usagePayload : Describe usagePayload := {
  fields p := fields (UsagePayload p)
}.

End WithPlatform.

(** *** The schema

    The request and response payloads are declarative field lists that the
    dispatch layer never inspects; it needs only that a request body can
    be marshalled and a response can be decoded into. *)
Class Schema := {
  ImageRequest : Type;
  RequestDocument : Type;
  RequestPostBatch : Type;
  RequestStrokes : Type;
  OCRSearchRequest : Type;
  ImageResponse : Type;
  ResponseDocument : Type;
  ResponseConversionResult : Type;
  ResponsePostBatch : Type;
  StrokesResponse : Type;
  OCRResultsResponse : Type;
  GetBatchResponse : Type;
  ResponseUsage : Type;
  Marshal_ImageRequest :: Marshal ImageRequest;
  Marshal_RequestDocument :: Marshal RequestDocument;
  Marshal_RequestPostBatch :: Marshal RequestPostBatch;
  Marshal_RequestStrokes :: Marshal RequestStrokes;
  Marshal_OCRSearchRequest :: Marshal OCRSearchRequest;
  Unmarshal_ImageResponse :: Unmarshal ImageResponse;
  Unmarshal_ResponseDocument :: Unmarshal ResponseDocument;
  Unmarshal_ResponseConversionResult :: Unmarshal ResponseConversionResult;
  Unmarshal_ResponsePostBatch :: Unmarshal ResponsePostBatch;
  Unmarshal_StrokesResponse :: Unmarshal StrokesResponse;
  Unmarshal_OCRResultsResponse :: Unmarshal OCRResultsResponse;
  Unmarshal_GetBatchResponse :: Unmarshal GetBatchResponse;
  Unmarshal_ResponseUsage :: Unmarshal ResponseUsage
}.

(** *** Endpoints *)

(** [endpoint[Request, Response]]: the two zero-length arrays only carry
    the type parameters. *)
Record endpoint (Request Response : Type) := mkEndpoint {
  name : string;
  method : string
}.
Arguments mkEndpoint {Request Response} _ _.
Arguments name {Request Response} _.
Arguments method {Request Response} _.

(** What a Go function does: it returns, or it panics (here: a nil pointer
    or a nil function is used). *)
Inductive Outcome (A : Type) :=
| Return (a : A)
| Panic.
Arguments Return {A} _.
Arguments Panic {A}.

Section WithSchema.
Context `{Platform} `{Schema}.

Definition imageRequestPayload := bodyPayload ImageRequest.
Definition documentRequestPayload := bodyPayload RequestDocument.
Definition postBatchRequestPayload := bodyPayload RequestPostBatch.
Definition requestStrokesPayload := bodyPayload RequestStrokes.
Definition ocrResultsPayload := bodyPayload OCRSearchRequest.

(** The package-level [var] block of endpoints: nine variables, each with
    its own pair of type parameters (all of them pointer types). *)
Record Registry := mkRegistry {
  imagesEndpoint :
    endpoint (option imageRequestPayload) (option ImageResponse);
  documentsEndpoint :
    endpoint (option documentRequestPayload) (option ResponseDocument);
  conversionStatusEndpoint :
    endpoint (option resultRequestPayload) (option ResponseConversionResult);
  batchEndpoint :
    endpoint (option postBatchRequestPayload) (option ResponsePostBatch);
  strokesEndpoint :
    endpoint (option requestStrokesPayload) (option StrokesResponse);
  appTokensEndpoint :
    endpoint (option appTokenPayload) (option AppTokenResponse);
  ocrResultsEndpoint :
    endpoint (option ocrResultsPayload) (option OCRResultsResponse);
  getBatchEndpoint :
    endpoint (option getBatchPayload) (option GetBatchResponse);
  requestUsageEndpoint :
    endpoint (option usagePayload) (option ResponseUsage)
}.

(** The values the variables are initialized with. *)
Definition initialRegistry : Registry := {|
  imagesEndpoint := {| method := MethodPost; name := "v3/image" |};
  documentsEndpoint := {| method := MethodPost; name := "v3/pdf" |};
  conversionStatusEndpoint := {| method := MethodGet; name := "v3/status" |};
  batchEndpoint := {| method := MethodPost; name := "v3/batch" |};
  strokesEndpoint := {| method := MethodPost; name := "v3/strokes" |};
  appTokensEndpoint := {| method := MethodPost; name := "v3/app-tokens" |};
  ocrResultsEndpoint := {| method := MethodGet; name := "v3/ocr-results" |};
  getBatchEndpoint := {| method := MethodGet; name := "v3/batch" |};
  requestUsageEndpoint := {| method := MethodPost; name := "v3/usage" |}
|}.

(** The state outside a call: the endpoint variables and the requests
    handed to the HTTP client so far, oldest first. *)
Record World := mkWorld {
  endpoints : Registry;
  sent : list Request
}.

Definition send (w : World) (req : Request) : World :=
  {| endpoints := endpoints w; sent := sent w ++ [req] |}.

(** *** The client *)

Record Client := mkClient {
  apiKey : string;
  appID : string;
  baseURL : URL;
  client : option HTTPClient;
  logger : option Logger;
  SetCommonHeaders : option (Request -> Request)
}.

(** [ClientOption], a function on a client pointer: it updates the client and
    returns nothing. *)
Definition ClientOption := Client -> Client.

(** [func WithBaseURL(baseURL string) ClientOption] *)
Definition WithBaseURL (s : string) : ClientOption :=
  fun c =>
    match url_Parse s with
    | Some u =>
        {| apiKey := apiKey c; appID := appID c; baseURL := u;
           client := client c; logger := logger c;
           SetCommonHeaders := SetCommonHeaders c |}
    | None => c
    end.

(** [func WithLogger(logger *slog.Logger) ClientOption] *)
Definition WithLogger (l : option Logger) : ClientOption :=
  fun c =>
    {| apiKey := apiKey c; appID := appID c; baseURL := baseURL c;
       client := client c; logger := l;
       SetCommonHeaders := SetCommonHeaders c |}.

(** [func WithClient(client *http.Client) ClientOption] *)
Definition WithClient (cl : option HTTPClient) : ClientOption :=
  fun c =>
    {| apiKey := apiKey c; appID := appID c; baseURL := baseURL c;
       client := cl; logger := logger c;
       SetCommonHeaders := SetCommonHeaders c |}.

(** [func NewClient(apiKey, appID string, opts ...ClientOption) *Client].
    The closure stored in [SetCommonHeaders] reads the credentials of the
    client it was made for; they are not assigned again afterwards. *)
Definition NewClient (key id : string) (opts : list ClientOption)
  : Outcome Client :=
  match url_Parse "https://api.mathpix.com" with
  | None => Panic
  | Some u =>
      let c0 := {| apiKey := key; appID := id; baseURL := u;
                   client := Some DefaultClient; logger := None;
                   SetCommonHeaders := None |} in
      let c := fold_left (fun c opt => opt c) opts c0 in
      Return
        {| apiKey := apiKey c; appID := appID c; baseURL := baseURL c;
           client := client c; logger := logger c;
           SetCommonHeaders :=
             Some (fun req =>
                     setHeader (setHeader req "app_key" (apiKey c))
                               "app_id" (appID c)) |}
  end.

(** *** The dispatcher *)

(** The dynamic types of the [error] values [call] returns. *)
Inductive error :=
| EncodeErr (e : EncodeError)
| TransportErr (e : TransportError)
| DecodeErr (e : DecodeError)
| APIErr (e : APIError).

(** [func nopDecode[T any](r io.Reader) (io.Reader, T, error)]: the reader
    returned on success replays the bytes the decoder has read, which hold
    the whole first value of the body; the body itself stands for it. *)
Definition nopDecode {T} `{Unmarshal T} (r : string)
  : option string * T * option DecodeError :=
  let '(v, err) := Decode r zero in
  match err with
  | Some e => (None, v, Some e)
  | None => (Some r, v, None)
  end.

(** [func call[Request, Response any](ctx, c, e, request, param)
    (response Response, err error)] *)
Definition call {Request Response} `{Describe Request} `{Unmarshal Response}
    (ctx : Context) (c : Client) (e : endpoint Request Response)
    (request : Request) (param : string) (w : World)
  : World * Outcome (Response * option error) :=
  let response : Response := zero in
  match NewRequestWithContext (method e)
          (URL_String (JoinPath (baseURL c) [name e; param])) request with
  | None => (w, Panic)
  | Some (inl err) => (w, Return (response, Some (EncodeErr err)))
  | Some (inr httpReq) =>
      match SetCommonHeaders c with
      | None => (w, Panic)
      | Some setCommonHeaders =>
          let httpReq := setCommonHeaders httpReq in
          let contentType := Header_Get (ReqHeader httpReq) "Content-Type" in
          let httpReq :=
            if String.eqb contentType ""
            then setHeader httpReq "Content-Type" "application/json"
            else httpReq in
          match client c with
          | None => (w, Panic)
          | Some cl =>
              let w := send w httpReq in
              match Do cl ctx httpReq with
              | inl err => (w, Return (response, Some (TransportErr err)))
              | inr res =>
                  match nopDecode (T := APIError) (Body res) with
                  | (_, _, Some err) =>
                      (w, Return (response, Some (DecodeErr err)))
                  | (None, _, None) =>
                      (* a nil reader; [nopDecode] returns none without
                         an error *)
                      (w, Panic)
                  | (Some resp, apiErr, None) =>
                      if ((StatusCode res <? StatusOK)
                          || (StatusBadRequest <=? StatusCode res)
                          || isErrorID (ID apiErr))%bool
                      then (w, Return (response, Some (APIErr apiErr)))
                      else
                        match Decode resp response with
                        | (response, Some err) =>
                            (w, Return (response, Some (DecodeErr err)))
                        | (response, None) =>
                            (w, Return (response, None))
                        end
                  end
              end
          end
      end
  end.

(** Two observations of a call, for stating its properties: the request
    [call] hands to the HTTP client (none when encoding fails or the
    header hook is nil), and the response the client answers it with (none
    on a transport error or a nil client). *)
Definition wireRequest {Request Response} `{Describe Request}
    (c : Client) (e : endpoint Request Response) (request : Request)
    (param : string) : option Net.Request :=
  match NewRequestWithContext (method e)
          (URL_String (JoinPath (baseURL c) [name e; param])) request,
        SetCommonHeaders c with
  | Some (inr httpReq), Some setCommonHeaders =>
      let httpReq := setCommonHeaders httpReq in
      Some (if String.eqb (Header_Get (ReqHeader httpReq) "Content-Type") ""
            then setHeader httpReq "Content-Type" "application/json"
            else httpReq)
  | _, _ => None
  end.

Definition responseOf {Request Response} `{Describe Request}
    (ctx : Context) (c : Client) (e : endpoint Request Response)
    (request : Request) (param : string) : option Net.Response :=
  match wireRequest c e request param, client c with
  | Some httpReq, Some cl =>
      match Do cl ctx httpReq with
      | inr res => Some res
      | inl _ => None
      end
  | _, _ => None
  end.

(** The invariant of the specification on what a call surfaces: an error
    comes with the zero response, no error comes with a response. *)
Definition exactlyOne {Response} `{Unmarshal Response}
    (response : Response) (err : option error) : Prop :=
  (err <> None -> response = zero) /\ (err = None -> response <> zero).

(** *** The facade: one method per logical operation

    Request arguments are pointers.  The methods [RequestStrokes] and
    [RequestUsage] of [Client] share their names with request types and
    are prefixed here. *)

Definition Image (c : Client) (ctx : Context)
    (request : option ImageRequest) (w : World) :=
  call ctx c (imagesEndpoint (endpoints w))
       (Some {| Payload := request |}) "" w.

Definition Pdf (c : Client) (ctx : Context)
    (request : option RequestDocument) (w : World) :=
  call ctx c (documentsEndpoint (endpoints w))
       (Some {| Payload := request |}) "" w.

(** [request.PDFID] dereferences the argument. *)
Definition PdfResult (c : Client) (ctx : Context)
    (request : option ResultRequest) (w : World) :=
  match request with
  | None => (w, Panic)
  | Some r =>
      call ctx c (conversionStatusEndpoint (endpoints w)) None (PDFID r) w
  end.

Definition Batch (c : Client) (ctx : Context)
    (request : option RequestPostBatch) (w : World) :=
  call ctx c (batchEndpoint (endpoints w))
       (Some {| Payload := request |}) "" w.

Definition Client_RequestStrokes (c : Client) (ctx : Context)
    (request : option RequestStrokes) (w : World) :=
  call ctx c (strokesEndpoint (endpoints w))
       (Some {| Payload := request |}) "" w.

Definition SearchResults (c : Client) (ctx : Context)
    (request : option OCRSearchRequest) (w : World) :=
  call ctx c (ocrResultsEndpoint (endpoints w))
       (Some {| Payload := request |}) "" w.

Definition NewClientToken (c : Client) (ctx : Context)
    (request : option AppTokenRequest) (w : World) :=
  call ctx c (appTokensEndpoint (endpoints w))
       (Some {| Payload := request |}) "" w.

Definition GetBatch (c : Client) (ctx : Context)
    (batchID : string) (w : World) :=
  call ctx c (getBatchEndpoint (endpoints w))
       (Some mkGetBatchPayload) batchID w.

Definition Client_RequestUsage (c : Client) (ctx : Context)
    (request : option RequestUsage) (w : World) :=
  call ctx c (requestUsageEndpoint (endpoints w))
       (Some {| UsagePayload := request |}) "" w.

(** The nine logical operations, a facade invocation with its argument,
    the operation it stands for, its path parameter and the state it
    leaves. *)
Inductive Operation :=
| SubmitImage | SubmitPDF | PollConversionStatus | SubmitBatch | FetchBatch
| SubmitStrokes | SearchOCRResults | MintTemporaryToken | FetchUsage.

Inductive Invocation :=
| CallImage (request : option ImageRequest)
| CallPdf (request : option RequestDocument)
| CallPdfResult (request : option ResultRequest)
| CallBatch (request : option RequestPostBatch)
| CallGetBatch (batchID : string)
| CallRequestStrokes (request : option RequestStrokes)
| CallSearchResults (request : option OCRSearchRequest)
| CallNewClientToken (request : option AppTokenRequest)
| CallRequestUsage (request : option RequestUsage).

Definition operationOf (i : Invocation) : Operation :=
  match i with
  | CallImage _ => SubmitImage
  | CallPdf _ => SubmitPDF
  | CallPdfResult _ => PollConversionStatus
  | CallBatch _ => SubmitBatch
  | CallGetBatch _ => FetchBatch
  | CallRequestStrokes _ => SubmitStrokes
  | CallSearchResults _ => SearchOCRResults
  | CallNewClientToken _ => MintTemporaryToken
  | CallRequestUsage _ => FetchUsage
  end.

Definition pathParam (i : Invocation) : string :=
  match i with
  | CallPdfResult (Some r) => PDFID r
  | CallGetBatch batchID => batchID
  | _ => ""
  end.

Definition worldAfter (c : Client) (ctx : Context) (i : Invocation)
    (w : World) : World :=
  match i with
  | CallImage r => fst (Image c ctx r w)
  | CallPdf r => fst (Pdf c ctx r w)
  | CallPdfResult r => fst (PdfResult c ctx r w)
  | CallBatch r => fst (Batch c ctx r w)
  | CallGetBatch b => fst (GetBatch c ctx b w)
  | CallRequestStrokes r => fst (Client_RequestStrokes c ctx r w)
  | CallSearchResults r => fst (SearchResults c ctx r w)
  | CallNewClientToken r => fst (NewClientToken c ctx r w)
  | CallRequestUsage r => fst (Client_RequestUsage c ctx r w)
  end.

(** The verb and path of the endpoint variable each facade method passes
    to [call]. *)
Definition descriptorOf (reg : Registry) (op : Operation) : string * string :=
  match op with
  | SubmitImage =>
      (method (imagesEndpoint reg), name (imagesEndpoint reg))
  | SubmitPDF =>
      (method (documentsEndpoint reg), name (documentsEndpoint reg))
  | PollConversionStatus =>
      (method (conversionStatusEndpoint reg),
       name (conversionStatusEndpoint reg))
  | SubmitBatch =>
      (method (batchEndpoint reg), name (batchEndpoint reg))
  | FetchBatch =>
      (method (getBatchEndpoint reg), name (getBatchEndpoint reg))
  | SubmitStrokes =>
      (method (strokesEndpoint reg), name (strokesEndpoint reg))
  | SearchOCRResults =>
      (method (ocrResultsEndpoint reg), name (ocrResultsEndpoint reg))
  | MintTemporaryToken =>
      (method (appTokensEndpoint reg), name (appTokensEndpoint reg))
  | FetchUsage =>
      (method (requestUsageEndpoint reg), name (requestUsageEndpoint reg))
  end.

End WithSchema.

(** The table of endpoints and verbs of the specification. *)
Definition specTable (op : Operation) : string * string :=
  match op with
  | SubmitImage => ("POST", "v3/image")
  | SubmitPDF => ("POST", "v3/pdf")
  | PollConversionStatus => ("GET", "v3/status")
  | SubmitBatch => ("POST", "v3/batch")
  | FetchBatch => ("GET", "v3/batch")
  | SubmitStrokes => ("POST", "v3/strokes")
  | SearchOCRResults => ("GET", "v3/ocr-results")
  | MintTemporaryToken => ("POST", "v3/app-tokens")
  | FetchUsage => ("POST", "v3/usage")
  end.

End Mathpix.

(* ================================================================= *)
(** ** A small platform and schema to run the client on

    A stand-in for the standard library and for the payload schema, used
    to evaluate the client on concrete inputs: URLs are their text, the
    HTTP client is the function that answers a request, and of the
    response payloads only the string fields of [ImageResponse] are kept
    (the other payloads keep no field). *)

Module Fixture.
Import Errors Tokens JSON Net Encoder Mathpix.

(** [url.Parse] refuses a text that holds an ASCII control character. *)
Definition isCTL (c : ascii) : bool :=
  (N.ltb (code c) 32 || N.eqb (code c) 127)%bool.

Definition parseText (s : string) : option string :=
  if existsb isCTL (list_ascii_of_string s) then None else Some s.

(** [JoinPath] for a base without a trailing slash and clean elements:
    empty elements are dropped, the others appended after a slash. *)
Definition joinText (u : string) (elems : list string) : string :=
  fold_left (fun acc e => if String.eqb e "" then acc else acc ++ "/" ++ e)
            elems u.

#[export] Instance platform : Platform := {
  Context := unit;
  Time := Z;
  Time_IsZero t := Z.eqb t 0;
  Time_String := Z_String;
  URL := string;
  url_Parse := parseText;
  JoinPath := joinText;
  URL_String u := u;
  Logger := unit;
  TransportError := string;
  HTTPClient := Request -> string + Response;
  Do cl _ req := cl req;
  DefaultClient := fun _ => inl "connection refused"
}.

(** The string fields of [ImageResponse], by their JSON names. *)
Record ImageResponseText := mkImageResponseText {
  RequestID : string;
  Text : string;
  LatexStyled : string;
  HTML : string;
  Error_ : string;
  Version : string
}.

Definition ImageResponseText_member (v : ImageResponseText) (key : string)
    (j : value) : ImageResponseText * option DecodeError :=
  match findField ["request_id"; "text"; "latex_styled"; "html"; "error";
                   "version"] key with
  | Some f =>
      let upd (old : string) := storeString f j old in
      if String.eqb f "request_id" then
        let '(s, e) := upd (RequestID v) in
        ({| RequestID := s; Text := Text v; LatexStyled := LatexStyled v;
            HTML := HTML v; Error_ := Error_ v; Version := Version v |}, e)
      else if String.eqb f "text" then
        let '(s, e) := upd (Text v) in
        ({| RequestID := RequestID v; Text := s;
            LatexStyled := LatexStyled v; HTML := HTML v;
            Error_ := Error_ v; Version := Version v |}, e)
      else if String.eqb f "latex_styled" then
        let '(s, e) := upd (LatexStyled v) in
        ({| RequestID := RequestID v; Text := Text v; LatexStyled := s;
            HTML := HTML v; Error_ := Error_ v; Version := Version v |}, e)
      else if String.eqb f "html" then
        let '(s, e) := upd (HTML v) in
        ({| RequestID := RequestID v; Text := Text v;
            LatexStyled := LatexStyled v; HTML := s; Error_ := Error_ v;
            Version := Version v |}, e)
      else if String.eqb f "error" then
        let '(s, e) := upd (Error_ v) in
        ({| RequestID := RequestID v; Text := Text v;
            LatexStyled := LatexStyled v; HTML := HTML v; Error_ := s;
            Version := Version v |}, e)
      else
        let '(s, e) := upd (Version v) in
        ({| RequestID := RequestID v; Text := Text v;
            LatexStyled := LatexStyled v; HTML := HTML v;
            Error_ := Error_ v; Version := s |}, e)
  | None => (v, None)
  end.

Definition Unmarshal_ImageResponseText : Unmarshal ImageResponseText := {|
  zero := {| RequestID := ""; Text := ""; LatexStyled := ""; HTML := "";
             Error_ := ""; Version := "" |};
  unmarshal := unmarshalStruct ImageResponseText_member
|}.

(** A payload of which no field is kept. *)
Definition Marshal_opaque : Marshal unit := {|
  marshal _ := "{}"
|}.

Definition Unmarshal_opaque : Unmarshal unit := {|
  zero := tt;
  unmarshal := unmarshalStruct (fun v _ _ => (v, None))
|}.

#[export] Instance schema : Schema := {
  ImageRequest := unit;
  RequestDocument := unit;
  RequestPostBatch := unit;
  RequestStrokes := unit;
  OCRSearchRequest := unit;
  ImageResponse := ImageResponseText;
  ResponseDocument := unit;
  ResponseConversionResult := unit;
  ResponsePostBatch := unit;
  StrokesResponse := unit;
  OCRResultsResponse := unit;
  GetBatchResponse := unit;
  ResponseUsage := unit;
  Marshal_ImageRequest := Marshal_opaque;
  Marshal_RequestDocument := Marshal_opaque;
  Marshal_RequestPostBatch := Marshal_opaque;
  Marshal_RequestStrokes := Marshal_opaque;
  Marshal_OCRSearchRequest := Marshal_opaque;
  Unmarshal_ImageResponse := Unmarshal_ImageResponseText;
  Unmarshal_ResponseDocument := Unmarshal_opaque;
  Unmarshal_ResponseConversionResult := Unmarshal_opaque;
  Unmarshal_ResponsePostBatch := Unmarshal_opaque;
  Unmarshal_StrokesResponse := Unmarshal_opaque;
  Unmarshal_OCRResultsResponse := Unmarshal_opaque;
  Unmarshal_GetBatchResponse := Unmarshal_opaque;
  Unmarshal_ResponseUsage := Unmarshal_opaque
}.

(** A server that answers every request with one status and body. *)
Definition server (status : Z) (body : string) : Request -> string + Response :=
  fun _ => inr {| StatusCode := status; Body := body |}.

(** The client [NewClient] builds for a key, an identifier and a server. *)
Definition clientFor (srv : Request -> string + Response)
  : Outcome (Client (H := platform)) :=
  NewClient "key" "id" [WithClient (Some srv)].

(** The state at process start: the endpoint variables as initialized and
    nothing sent. *)
Definition world0 : World (H := platform) (H0 := schema) :=
  {| endpoints := initialRegistry; sent := [] |}.

(** Bodies used below.  [envelopeNested] is the wire shape of the error
    envelope: an object under the key [error] holding the identifier. *)
Definition envelopeFlat (id : string) : string :=
  "{" ++ quote "id" ++ ":" ++ quote id ++ "}".

Definition envelopeNested (id : string) : string :=
  "{" ++ quote "error" ++ ":" ++ envelopeFlat id ++ "}".

Definition tokenBodyBadType : string :=
  "{" ++ quote "app_token" ++ ":5}".

Definition tokenBodyGood : string :=
  "{" ++ quote "app_token" ++ ":" ++ quote "token_1" ++ ","
      ++ quote "app_token_expires_at" ++ ":1700000000}".

(** The client [clientFor] returns, written out. *)
Definition builtClient (srv : Request -> string + Response)
  : Client (H := platform) :=
  {| apiKey := "key"; appID := "id";
     baseURL := "https://api.mathpix.com" : URL (Platform := platform);
     client := Some srv; logger := None;
     SetCommonHeaders :=
       Some (fun req =>
               setHeader (setHeader req "app_key" "key") "app_id" "id") |}.

(** The background context. *)
Definition ctx0 : Context (Platform := platform) := tt.

(** A text [url.Parse] refuses: it holds a line feed. *)
Definition badURL : string := "https://api.mathpix.com" ++ String (chr 10) "".

Definition usageNoGroup : RequestUsage (H := platform) :=
  {| FromDate := 0; ToDate := 0; GroupBy := ""; Timespan := "day" |}.

Definition usageFull : RequestUsage (H := platform) :=
  {| FromDate := 0; ToDate := 0; GroupBy := "usage_type"; Timespan := "day" |}.

End Fixture.

(* ================================================================= *)
(** ** Image, input and output formats (image.go, documents.go) *)

Module Formats.

(** [type ImageFormat string] *)
Definition ImageFormat := string.

Definition JPEG : ImageFormat := "jpeg".
Definition PNG : ImageFormat := "png".
Definition BMP : ImageFormat := "bmp".
Definition JPEG2000 : ImageFormat := "jp2".
Definition WEBP : ImageFormat := "webp".
Definition PNM : ImageFormat := "pnm".
Definition PFM : ImageFormat := "pfm".
Definition SUNRASTER : ImageFormat := "sunraster".
Definition TIFF : ImageFormat := "tiff".
Definition OPENEXR : ImageFormat := "exr".
Definition HDR : ImageFormat := "hdr".
Definition GDAL : ImageFormat := "gdal".

(** [func (f ImageFormat) String() string] *)
Definition ImageFormat_String (f : ImageFormat) : string := f.

(** [func (f ImageFormat) Extensions() []string] *)
Definition Extensions (f : ImageFormat) : list string :=
  if String.eqb f JPEG then [".jpeg"; ".jpg"; ".jpe"]
  else if String.eqb f PNG then [".png"]
  else if String.eqb f BMP then [".bmp"; ".dib"]
  else if String.eqb f JPEG2000 then [".jp2"]
  else if String.eqb f WEBP then [".webp"]
  else if String.eqb f PNM then [".pbm"; ".pgm"; ".ppm"; ".pxm"; ".pnm"]
  else if String.eqb f PFM then [".pfm"]
  else if String.eqb f SUNRASTER then [".sr"; ".ras"]
  else if String.eqb f TIFF then [".tiff"; ".tif"]
  else if String.eqb f OPENEXR then [".exr"]
  else if String.eqb f HDR then [".hdr"; ".pic"]
  else if String.eqb f GDAL then []
  else [].

(** [func (f ImageFormat) IsValidExtension(ext string) bool]: the loop
    returns true at the first equal extension, false after the last. *)
Definition IsValidExtension (f : ImageFormat) (ext : string) : bool :=
  existsb (fun validExt => String.eqb validExt ext) (Extensions f).

(** The slice [ParseExtension] ranges over, in source order. *)
Definition parseOrder : list ImageFormat :=
  [JPEG; PNG; BMP; JPEG2000; WEBP; PNM; PFM; SUNRASTER; TIFF; OPENEXR; HDR;
   GDAL].

(** The loop of [ParseExtension] over the formats left to try. *)
Fixpoint parseFrom (formats : list ImageFormat) (ext : string)
  : ImageFormat * bool :=
  match formats with
  | [] => ("", false)
  | format :: rest =>
      if IsValidExtension format ext then (format, true)
      else parseFrom rest ext
  end.

(** [func ParseExtension(ext string) (ImageFormat, bool)] *)
Definition ParseExtension (ext : string) : ImageFormat * bool :=
  parseFrom parseOrder ext.

(** [type InputFormat string] and its constants. *)
Definition InputFormat := string.

Definition InputFormatPDF : InputFormat := "pdf".
Definition InputFormatEPUB : InputFormat := "epub".
Definition InputFormatDOCX : InputFormat := "docx".
Definition InputFormatPPTX : InputFormat := "pptx".
Definition InputFormatAZW : InputFormat := "azw".
Definition InputFormatAZW3 : InputFormat := "azw3".
Definition InputFormatKFX : InputFormat := "kfx".
Definition InputFormatMOBI : InputFormat := "mobi".
Definition InputFormatDJVU : InputFormat := "djvu".
Definition InputFormatDOC : InputFormat := "doc".
Definition InputFormatWPD : InputFormat := "wpd".
Definition InputFormatODT : InputFormat := "odt".

Definition inputFormatCases : list InputFormat :=
  [InputFormatPDF; InputFormatEPUB; InputFormatDOCX; InputFormatPPTX;
   InputFormatAZW; InputFormatAZW3; InputFormatKFX; InputFormatMOBI;
   InputFormatDJVU; InputFormatDOC; InputFormatWPD; InputFormatODT].

(** [func (f InputFormat) IsValid() bool] *)
Definition InputFormat_IsValid (f : InputFormat) : bool :=
  existsb (String.eqb f) inputFormatCases.

(** [type DocumentOutputFormat string] and its constants. *)
Definition DocumentOutputFormat := string.

Definition DocumentFormatMMD : DocumentOutputFormat := "mmd".
Definition DocumentFormatMD : DocumentOutputFormat := "md".
Definition DocumentFormatDOCX : DocumentOutputFormat := "docx".
Definition DocumentFormatLaTeXZip : DocumentOutputFormat := "latex_zip".
Definition DocumentFormatHTML : DocumentOutputFormat := "html".
Definition DocumentFormatPDFWithHTML : DocumentOutputFormat := "pdf_html".
Definition DocumentFormatPDFWithLaTeX : DocumentOutputFormat := "pdf_latex".

Definition documentOutputFormatCases : list DocumentOutputFormat :=
  [DocumentFormatMMD; DocumentFormatMD; DocumentFormatDOCX;
   DocumentFormatLaTeXZip; DocumentFormatHTML; DocumentFormatPDFWithHTML;
   DocumentFormatPDFWithLaTeX].

(** [func (f DocumentOutputFormat) IsValid() bool] *)
Definition DocumentOutputFormat_IsValid (f : DocumentOutputFormat) : bool :=
  existsb (String.eqb f) documentOutputFormatCases.

End Formats.

(* ================================================================= *)
(** ** Data options (image.go) *)

Module DataOpts.

Record DataOptions := mkDataOptions {
  IncludeSVG : bool;
  IncludeTableHTML : bool;
  IncludeLatex : bool;
  IncludeTSV : bool;
  IncludeAsciimath : bool;
  IncludeMathML : bool
}.

(** [func NewDataOptions() *DataOptions] *)
Definition NewDataOptions : DataOptions :=
  {| IncludeSVG := false; IncludeTableHTML := false; IncludeLatex := false;
     IncludeTSV := false; IncludeAsciimath := false; IncludeMathML := false |}.

(** The six setters; each assigns one field of its receiver and returns
    the receiver. *)
Definition WithSVG (o : DataOptions) : DataOptions :=
  {| IncludeSVG := true; IncludeTableHTML := IncludeTableHTML o;
     IncludeLatex := IncludeLatex o; IncludeTSV := IncludeTSV o;
     IncludeAsciimath := IncludeAsciimath o;
     IncludeMathML := IncludeMathML o |}.

Definition WithTableHTML (o : DataOptions) : DataOptions :=
  {| IncludeSVG := IncludeSVG o; IncludeTableHTML := true;
     IncludeLatex := IncludeLatex o; IncludeTSV := IncludeTSV o;
     IncludeAsciimath := IncludeAsciimath o;
     IncludeMathML := IncludeMathML o |}.

Definition WithLatex (o : DataOptions) : DataOptions :=
  {| IncludeSVG := IncludeSVG o; IncludeTableHTML := IncludeTableHTML o;
     IncludeLatex := true; IncludeTSV := IncludeTSV o;
     IncludeAsciimath := IncludeAsciimath o;
     IncludeMathML := IncludeMathML o |}.

Definition WithTSV (o : DataOptions) : DataOptions :=
  {| IncludeSVG := IncludeSVG o; IncludeTableHTML := IncludeTableHTML o;
     IncludeLatex := IncludeLatex o; IncludeTSV := true;
     IncludeAsciimath := IncludeAsciimath o;
     IncludeMathML := IncludeMathML o |}.

Definition WithAsciimath (o : DataOptions) : DataOptions :=
  {| IncludeSVG := IncludeSVG o; IncludeTableHTML := IncludeTableHTML o;
     IncludeLatex := IncludeLatex o; IncludeTSV := IncludeTSV o;
     IncludeAsciimath := true; IncludeMathML := IncludeMathML o |}.

Definition WithMathML (o : DataOptions) : DataOptions :=
  {| IncludeSVG := IncludeSVG o; IncludeTableHTML := IncludeTableHTML o;
     IncludeLatex := IncludeLatex o; IncludeTSV := IncludeTSV o;
     IncludeAsciimath := IncludeAsciimath o; IncludeMathML := true |}.

(** [func (o *DataOptions) Reset()] *)
Definition Reset (o : DataOptions) : DataOptions :=
  {| IncludeSVG := false; IncludeTableHTML := false; IncludeLatex := false;
     IncludeTSV := false; IncludeAsciimath := false; IncludeMathML := false |}.

(** [func (o *DataOptions) Clone() *DataOptions] *)
Definition Clone (o : DataOptions) : DataOptions :=
  {| IncludeSVG := IncludeSVG o; IncludeTableHTML := IncludeTableHTML o;
     IncludeLatex := IncludeLatex o; IncludeTSV := IncludeTSV o;
     IncludeAsciimath := IncludeAsciimath o;
     IncludeMathML := IncludeMathML o |}.

(** A setter by name, and a chain of setters applied left to right. *)
Inductive Setter :=
| SetSVG | SetTableHTML | SetLatex | SetTSV | SetAsciimath | SetMathML.

Definition Setter_eqb (a b : Setter) : bool :=
  match a, b with
  | SetSVG, SetSVG | SetTableHTML, SetTableHTML | SetLatex, SetLatex
  | SetTSV, SetTSV | SetAsciimath, SetAsciimath | SetMathML, SetMathML => true
  | _, _ => false
  end.

Definition applySetter (o : DataOptions) (s : Setter) : DataOptions :=
  match s with
  | SetSVG => WithSVG o
  | SetTableHTML => WithTableHTML o
  | SetLatex => WithLatex o
  | SetTSV => WithTSV o
  | SetAsciimath => WithAsciimath o
  | SetMathML => WithMathML o
  end.

Definition applySetters (ss : list Setter) (o : DataOptions) : DataOptions :=
  fold_left applySetter ss o.

(** The field a setter assigns. *)
Definition flag (s : Setter) (o : DataOptions) : bool :=
  match s with
  | SetSVG => IncludeSVG o
  | SetTableHTML => IncludeTableHTML o
  | SetLatex => IncludeLatex o
  | SetTSV => IncludeTSV o
  | SetAsciimath => IncludeAsciimath o
  | SetMathML => IncludeMathML o
  end.

End DataOpts.

(* ================================================================= *)
(** ** Observations on clients and facade calls *)

Module Observe.
Import Errors Tokens JSON Net Encoder Mathpix.

Section WithSchema.
Context `{Platform} `{Schema}.

(** The options the package provides, by name, and the [ClientOption] each
    one is. *)
Inductive OptionName :=
| OptBaseURL (baseURL : string)
| OptLogger (l : option Logger)
| OptClient (cl : option HTTPClient).

Definition optionOf (o : OptionName) : ClientOption :=
  match o with
  | OptBaseURL s => WithBaseURL s
  | OptLogger l => WithLogger l
  | OptClient cl => WithClient cl
  end.

(** The HTTP client and the logger a list of options names last, the
    defaults of [NewClient] when it names none. *)
Definition chosenClient (names : list OptionName) : option HTTPClient :=
  fold_left (fun acc o => match o with OptClient cl => cl | _ => acc end)
            names (Some DefaultClient).

Definition chosenLogger (names : list OptionName) : option Logger :=
  fold_left (fun acc o => match o with OptLogger l => l | _ => acc end)
            names None.

(** Whether a function ended in a panic. *)
Definition panicked {A} (o : Outcome A) : bool :=
  match o with
  | Panic => true
  | Return _ => false
  end.

End WithSchema.

End Observe.

(* ================================================================= *)
(** ** Properties *)

Import Errors Tokens JSON Net Encoder Mathpix.

(** *** Errors and token requests *)

Lemma isErrorID_cases (i : ErrorID) :
  isErrorID i = true <-> In i errorIDCases.
Proof.
  unfold isErrorID. rewrite existsb_exists. split.
  - intros [x [Hin Heq]]. apply String.eqb_eq in Heq. now subst.
  - intros Hin. exists i. split; [assumption | apply String.eqb_refl].
Qed.

Lemma empty_is_no_ErrorID : isErrorID "" = false.
Proof. reflexivity. Qed.

(** C8: the string form of an [APIError] is the identifier, a colon, a
    space and the message when [Message] is non-nil, and the identifier
    alone when [Message] is nil. *)
Theorem APIError_Error_form :
  (forall id m d,
      Error {| ID := id; Message := Some m; Detail := d |}
      = (id ++ ": " ++ m)%string) /\
  (forall id d, Error {| ID := id; Message := None; Detail := d |} = id).
Proof. split; reflexivity. Qed.

Lemma clamp_spec (lo hi x : Z) :
  lo <= hi ->
  clamp lo hi x = (if x <? lo then lo else if hi <? x then hi else x).
Proof.
  intros Hle. unfold clamp.
  destruct (Z.ltb_spec x lo); destruct (Z.ltb_spec hi x); lia.
Qed.

Lemma WithExpiration_Expires (s : Z) (r : AppTokenRequest) :
  Expires (WithExpiration s r) =
  if IncludeStrokesSessionID r then clamp 30 300 s else clamp 30 43200 s.
Proof.
  unfold WithExpiration; simpl.
  destruct (IncludeStrokesSessionID r); rewrite clamp_spec by lia; reflexivity.
Qed.

(** C6: with the strokes session enabled, asking for 500 seconds sets
    [Expires] to 300; in general [WithExpiration] stores the clamp of its
    argument into 30..300 when the strokes session is enabled and into
    30..43200 otherwise, and leaves the strokes flag as it is. *)
Theorem WithExpiration_clamps :
  Expires (WithExpiration 500 (WithStrokesSession NewAppTokenRequest)) = 300 /\
  (forall e,
      Expires (WithExpiration 500
                 {| IncludeStrokesSessionID := true; Expires := e |}) = 300) /\
  (forall s r,
      Expires (WithExpiration s r) =
      (if IncludeStrokesSessionID r
       then clamp 30 300 s else clamp 30 43200 s) /\
      IncludeStrokesSessionID (WithExpiration s r)
      = IncludeStrokesSessionID r).
Proof.
  split; [reflexivity | split; [reflexivity |]].
  intros s r. split; [apply WithExpiration_Expires | reflexivity].
Qed.

Lemma inRange_applyCall (r : AppTokenRequest) (c : BuilderCall) :
  inRange r -> inRange (applyCall r c).
Proof.
  intros [Hb Hs]. destruct c as [| s]; unfold inRange; simpl.
  - destruct (Z.ltb_spec 300 (Expires r)); split; intros; lia.
  - destruct (IncludeStrokesSessionID r) eqn:Hf.
    + destruct (Z.ltb_spec s 30); [| destruct (Z.ltb_spec 300 s)];
        split; intros; lia.
    + destruct (Z.ltb_spec s 30); [| destruct (Z.ltb_spec 43200 s)];
        split; intros; (lia || discriminate).
Qed.

Lemma inRange_applyCalls (cs : list BuilderCall) :
  forall r, inRange r -> inRange (applyCalls cs r).
Proof.
  unfold applyCalls.
  induction cs as [| c cs IH]; intros r Hr; simpl.
  - exact Hr.
  - apply IH, inRange_applyCall, Hr.
Qed.

(** C9: after any finite sequence of [WithStrokesSession] and
    [WithExpiration] calls on [NewAppTokenRequest()], [Expires] lies in
    30..43200, and in 30..300 when the strokes session is enabled. *)
Theorem builder_chain_inRange (cs : list BuilderCall) :
  30 <= Expires (applyCalls cs NewAppTokenRequest) <= 43200 /\
  (IncludeStrokesSessionID (applyCalls cs NewAppTokenRequest) = true ->
   Expires (applyCalls cs NewAppTokenRequest) <= 300).
Proof.
  apply (inRange_applyCalls cs NewAppTokenRequest).
  unfold inRange, NewAppTokenRequest; simpl. split; [lia | discriminate].
Qed.

(** *** The client options *)

Section OptionProperties.
Context `{Platform} `{Schema}.

(** C10: [WithBaseURL] with a string that [url.Parse] refuses leaves the
    base URL as it was, and, whatever the string, leaves every other field
    of the client as it was; an option is a function from client to client
    and has no error to report. *)
Theorem WithBaseURL_frame (s : string) (c : Client) :
  (url_Parse s = None -> baseURL (WithBaseURL s c) = baseURL c) /\
  apiKey (WithBaseURL s c) = apiKey c /\
  appID (WithBaseURL s c) = appID c /\
  client (WithBaseURL s c) = client c /\
  logger (WithBaseURL s c) = logger c /\
  SetCommonHeaders (WithBaseURL s c) = SetCommonHeaders c.
Proof.
  unfold WithBaseURL. destruct (url_Parse s) as [u |] eqn:Hp; simpl.
  - repeat split. discriminate.
  - repeat split.
Qed.

Lemma WithBaseURL_ignored (s : string) (c : Client) :
  url_Parse s = None -> WithBaseURL s c = c.
Proof. intros Hp. unfold WithBaseURL. now rewrite Hp. Qed.

(** At construction such an option is dropped without a trace. *)
Lemma NewClient_ignores_unparsable (key id s : string)
    (opts : list ClientOption) :
  url_Parse s = None ->
  NewClient key id (opts ++ [WithBaseURL s]) = NewClient key id opts.
Proof.
  intros Hp. unfold NewClient.
  destruct (url_Parse "https://api.mathpix.com") as [u |]; [| reflexivity].
  rewrite fold_left_app. simpl.
  now rewrite (WithBaseURL_ignored s _ Hp).
Qed.

End OptionProperties.

(** *** The dispatcher *)

Section CallProperties.
Context `{Platform} `{Schema}.
Context {Request Response : Type} `{Describe Request} `{Unmarshal Response}.

Implicit Types (c : Client) (e : endpoint Request Response)
  (request : Request) (param : string) (w : World) (ctx : Context).

(** Classification and decoding of a response, as [call] does them once
    the HTTP client has answered. *)
Lemma call_response ctx c e request param w res :
  responseOf ctx c e request param = Some res ->
  snd (call ctx c e request param w) =
  match Decode (T := APIError) (Body res) zero with
  | (_, Some err) => Return (zero, Some (DecodeErr err))
  | (apiErr, None) =>
      if ((StatusCode res <? StatusOK)
          || (StatusBadRequest <=? StatusCode res)
          || isErrorID (ID apiErr))%bool
      then Return (zero, Some (APIErr apiErr))
      else
        match Decode (Body res) (zero : Response) with
        | (response, Some err) => Return (response, Some (DecodeErr err))
        | (response, None) => Return (response, None)
        end
  end.
Proof.
  unfold responseOf, wireRequest, call, nopDecode.
  destruct (NewRequestWithContext _ _ _) as [[err | httpReq] |];
    [discriminate | | discriminate].
  destruct (SetCommonHeaders c) as [set |]; [| discriminate].
  destruct (client c) as [cl |]; [| discriminate].
  destruct (Do cl ctx _) as [err | res']; [discriminate |].
  intros [= ->].
  destruct (Decode (Body res) zero) as [apiErr [err |]]; simpl; [reflexivity |].
  destruct ((StatusCode res <? StatusOK)
            || (StatusBadRequest <=? StatusCode res)
            || isErrorID (ID apiErr))%bool; [reflexivity |].
  destruct (Decode (Body res) zero) as [r [err |]]; reflexivity.
Qed.

(** Without a response, [call] panics or returns the zero response with
    the encoder's or the transport's error. *)
Lemma call_no_response ctx c e request param w :
  responseOf ctx c e request param = None ->
  snd (call ctx c e request param w) = Panic \/
  (exists err, snd (call ctx c e request param w)
               = Return (zero, Some (EncodeErr err))) \/
  (exists err, snd (call ctx c e request param w)
               = Return (zero, Some (TransportErr err))).
Proof.
  unfold responseOf, wireRequest, call.
  destruct (NewRequestWithContext _ _ _) as [[err | httpReq] |].
  - intros _. right. left. now exists err.
  - destruct (SetCommonHeaders c) as [set |]; [| now left].
    destruct (client c) as [cl |]; [| now left].
    destruct (Do cl ctx _) as [err | res]; [| discriminate].
    intros _. right. right. now exists err.
  - now left.
Qed.

(** C1: for every identifier [isErrorID] accepts, when the response has a
    2xx status and the envelope decoded from its body carries the
    identifier, [call] returns that envelope as an [APIError] together
    with the zero response. *)
Theorem inband_error_is_APIError ctx c e request param w res apiErr id :
  isErrorID id = true ->
  responseOf ctx c e request param = Some res ->
  200 <= StatusCode res <= 299 ->
  Decode (Body res) zero = (apiErr, None) ->
  ID apiErr = id ->
  snd (call ctx c e request param w) = Return (zero, Some (APIErr apiErr)).
Proof.
  intros Hid Hres Hst Hdec Heq.
  rewrite (call_response _ _ _ _ _ _ _ Hres), Hdec, Heq, Hid.
  now rewrite orb_true_r.
Qed.

(** C4: for every status outside 200..399 and every body, [call] returns
    an error and the zero response; the error is the decoded envelope, or
    the decoder's error when the body does not decode as an envelope. *)
Theorem bad_status_is_failure ctx c e request param w res :
  responseOf ctx c e request param = Some res ->
  StatusCode res < 200 \/ 399 < StatusCode res ->
  exists err,
    snd (call ctx c e request param w) = Return (zero, Some err) /\
    match Decode (T := APIError) (Body res) zero with
    | (apiErr, None) => err = APIErr apiErr
    | (_, Some d) => err = DecodeErr d
    end.
Proof.
  intros Hres Hst.
  rewrite (call_response _ _ _ _ _ _ _ Hres).
  destruct (Decode (Body res) zero) as [apiErr [d |]].
  - now exists (DecodeErr d).
  - exists (APIErr apiErr). split; [| reflexivity].
    replace ((StatusCode res <? StatusOK)
             || (StatusBadRequest <=? StatusCode res))%bool with true;
      [reflexivity |].
    symmetry. apply orb_true_iff. unfold StatusOK, StatusBadRequest.
    destruct Hst; [left; apply Z.ltb_lt | right; apply Z.leb_le]; lia.
Qed.

(** C3, amended: when [call] returns no error, the response is the value
    decoded from the body of the HTTP response, without a decoding error;
    when it returns an error, the response is the zero value unless the
    error is the failure to decode the body into the response type. *)
Theorem call_surfaces ctx c e request param w response err :
  snd (call ctx c e request param w) = Return (response, err) ->
  (err = None ->
   exists res, responseOf ctx c e request param = Some res /\
               Decode (Body res) zero = (response, None)) /\
  (err <> None ->
   response = zero \/
   exists res d, responseOf ctx c e request param = Some res /\
                 Decode (Body res) zero = (response, Some d) /\
                 err = Some (DecodeErr d)).
Proof.
  destruct (responseOf ctx c e request param) as [res |] eqn:Hres.
  - rewrite (call_response _ _ _ _ _ _ _ Hres).
    destruct (Decode (T := APIError) (Body res) zero) as [apiErr [d |]].
    + intros [= <- <-]. split; [discriminate | now left].
    + destruct ((StatusCode res <? StatusOK)
                || (StatusBadRequest <=? StatusCode res)
                || isErrorID (ID apiErr))%bool.
      * intros [= <- <-]. split; [discriminate | now left].
      * destruct (Decode (Body res) zero) as [r [d |]] eqn:Hdec;
          intros [= <- <-].
        -- split; [discriminate |]. intros _. right. now exists res, d.
        -- split; [| congruence]. intros _. now exists res.
  - destruct (call_no_response ctx c e request param w Hres)
      as [Hp | [[x Hx] | [x Hx]]]; rewrite ?Hp, ?Hx; [discriminate | |];
      intros [= <- <-]; (split; [discriminate | now left]).
Qed.

End CallProperties.

(** *** What a call leaves behind *)

Section WorldProperties.
Context `{Platform} `{Schema}.
Context {Request Response : Type} `{Describe Request} `{Unmarshal Response}.

Implicit Types (c : Client) (e : endpoint Request Response)
  (request : Request) (param : string) (w : World) (ctx : Context).

Lemma call_endpoints ctx c e request param w :
  endpoints (fst (call ctx c e request param w)) = endpoints w.
Proof.
  unfold call.
  destruct (NewRequestWithContext _ _ _) as [[err | httpReq] |];
    [reflexivity | | reflexivity].
  destruct (SetCommonHeaders c); [| reflexivity].
  destruct (client c); [| reflexivity].
  destruct (Do _ _ _) as [err | res]; [reflexivity |].
  destruct (nopDecode (Body res)) as [[[resp |] apiErr] [err |]];
    try reflexivity.
  destruct (_ || _ || _)%bool; [reflexivity |].
  destruct (Decode resp zero) as [out [err |]]; reflexivity.
Qed.

(** At most one request goes to the HTTP client, and it is the wire
    request of the call. *)
Lemma call_sent ctx c e request param w :
  sent (fst (call ctx c e request param w)) = sent w \/
  exists req, wireRequest c e request param = Some req /\
              sent (fst (call ctx c e request param w)) = (sent w ++ [req])%list.
Proof.
  unfold call, wireRequest.
  destruct (NewRequestWithContext _ _ _) as [[err | httpReq] |];
    [now left | | now left].
  destruct (SetCommonHeaders c); [| now left].
  destruct (client c); [| now left].
  right. eexists. split; [reflexivity |].
  destruct (Do _ _ _) as [err | res]; [reflexivity |].
  destruct (nopDecode (Body res)) as [[[resp |] apiErr] [err |]];
    try reflexivity.
  destruct (_ || _ || _)%bool; [reflexivity |].
  destruct (Decode resp zero) as [out [err |]]; reflexivity.
Qed.

(** A failed encoding ends the call before the HTTP client is used. *)
Lemma call_encode_error ctx c e request param w err :
  NewRequestWithContext (method e)
    (URL_String (JoinPath (baseURL c) [name e; param])) request
  = Some (inl err) ->
  call ctx c e request param w = (w, Return (zero, Some (EncodeErr err))).
Proof. intros Henc. unfold call. now rewrite Henc. Qed.

Lemma encodeField_verb_url (req req' : Net.Request) (f : Field) :
  encodeField req f = inr req' ->
  Method req' = Method req /\ RequestURL req' = RequestURL req.
Proof.
  unfold encodeField. destruct (directive f) as [n r | n |].
  - destruct (r && isZero f)%bool; [discriminate |].
    intros [= <-]. now split.
  - intros [= <-]. now split.
  - intros [= <-]. now split.
Qed.

Lemma encodeFields_verb_url (fs : list Field) :
  forall req req' : Net.Request,
    encodeFields req fs = inr req' ->
    Method req' = Method req /\ RequestURL req' = RequestURL req.
Proof.
  induction fs as [| f fs IH]; intros req req'; simpl.
  - intros [= <-]. now split.
  - destruct (encodeField req f) as [err | req1] eqn:Hf; [discriminate |].
    intros Hfs. destruct (encodeField_verb_url _ _ _ Hf) as [Hm Hu].
    destruct (IH _ _ Hfs) as [Hm' Hu']. split; congruence.
Qed.

(** With the header hook that [NewClient] installs, the wire request has
    the verb of the endpoint and the URL joined from the base URL, the
    path of the endpoint and the path parameter. *)
Lemma wireRequest_verb_url key id opts c e request param req :
  NewClient key id opts = Return c ->
  wireRequest c e request param = Some req ->
  Method req = method e /\
  RequestURL req = URL_String (JoinPath (baseURL c) [name e; param]).
Proof.
  unfold NewClient. destruct (url_Parse _) as [u |]; [| discriminate].
  intros [= <-]. unfold wireRequest; simpl.
  unfold NewRequestWithContext.
  destruct (fields request) as [fs |]; [| discriminate].
  destruct (encodeFields _ _) as [err | httpReq] eqn:Henc; [discriminate |].
  destruct (encodeFields_verb_url _ _ _ Henc) as [Hm Hu]. simpl in Hm, Hu.
  destruct (String.eqb _ _); intros [= <-]; simpl; now split.
Qed.

End WorldProperties.

(** *** The facade *)

Section FacadeProperties.
Context `{Platform} `{Schema}.

Lemma initialRegistry_table (op : Operation) :
  descriptorOf initialRegistry op = specTable op.
Proof. destruct op; reflexivity. Qed.

Lemma worldAfter_endpoints (c : Client) (ctx : Context) (i : Invocation)
    (w : World) :
  endpoints (worldAfter c ctx i w) = endpoints w.
Proof.
  destruct i as [r | r | [r |] | r | b | r | r | r | r]; simpl;
    unfold Image, Pdf, PdfResult, Batch, GetBatch, Client_RequestStrokes,
      SearchResults, NewClientToken, Client_RequestUsage;
    try apply call_endpoints; reflexivity.
Qed.

Lemma worldAfter_sent key id opts (c : Client) (ctx : Context)
    (i : Invocation) (w : World) :
  NewClient key id opts = Return c ->
  sent (worldAfter c ctx i w) = sent w \/
  exists req,
    sent (worldAfter c ctx i w) = (sent w ++ [req])%list /\
    Method req = fst (descriptorOf (endpoints w) (operationOf i)) /\
    RequestURL req =
    URL_String (JoinPath (baseURL c)
                  [snd (descriptorOf (endpoints w) (operationOf i));
                   pathParam i]).
Proof.
  intros Hc.
  destruct i as [r | r | [r |] | r | b | r | r | r | r]; simpl;
    unfold Image, Pdf, PdfResult, Batch, GetBatch, Client_RequestStrokes,
      SearchResults, NewClientToken, Client_RequestUsage;
    try (now left);
    match goal with
    | |- context [call ctx c ?e ?rq ?p w] =>
        destruct (call_sent ctx c e rq p w) as [Hs | [req [Hw Hs]]];
          [now left |];
        right; exists req; split; [exact Hs |];
        exact (wireRequest_verb_url _ _ _ _ _ _ _ _ Hc Hw)
    end.
Qed.

(** C7: the endpoint variable each facade method uses has, as
    initialized, the verb and path of the table of the specification; no
    facade call changes an endpoint variable; and the one request a call
    of a client built by [NewClient] sends carries that verb, and the URL
    joined from the base URL, that path and the path parameter. *)
Theorem endpoint_registry_fixed :
  (forall op, descriptorOf initialRegistry op = specTable op) /\
  (forall c ctx i w, endpoints (worldAfter c ctx i w) = endpoints w) /\
  (forall key id opts c ctx i past,
      NewClient key id opts = Return c ->
      let w := {| endpoints := initialRegistry; sent := past |} in
      sent (worldAfter c ctx i w) = past \/
      exists req,
        sent (worldAfter c ctx i w) = (past ++ [req])%list /\
        Method req = fst (specTable (operationOf i)) /\
        RequestURL req =
        URL_String (JoinPath (baseURL c)
                      [snd (specTable (operationOf i)); pathParam i])).
Proof.
  split; [exact initialRegistry_table |].
  split; [exact worldAfter_endpoints |].
  intros key id opts c ctx i past Hc w.
  destruct (worldAfter_sent key id opts c ctx i w Hc) as [Hs | [req Hreq]].
  - now left.
  - right. exists req. simpl in Hreq.
    now rewrite initialRegistry_table in Hreq.
Qed.

(** The tags of [RequestUsage] give four query parameters, none of them
    required. *)
Lemma RequestUsage_fields_plain (r : RequestUsage) :
  RequestUsage_fields r =
  [ {| directive := DQuery "from_date" false;
       isZero := Time_IsZero (FromDate r); wire := Time_String (FromDate r) |};
    {| directive := DQuery "to_date" false;
       isZero := Time_IsZero (ToDate r); wire := Time_String (ToDate r) |};
    {| directive := DQuery "group_by" false;
       isZero := String.eqb (GroupBy r) ""; wire := GroupBy r |};
    {| directive := DQuery "timespan" false;
       isZero := String.eqb (Timespan r) ""; wire := Timespan r |} ].
Proof. reflexivity. Qed.

(** A usage request encodes whatever its fields hold, the empty
    [group_by] and [timespan] included. *)
Lemma usage_always_encodes (m u : string) (r : RequestUsage) :
  NewRequestWithContext m u (Some {| UsagePayload := Some r |})
  = Some (inr {| Method := m; RequestURL := u;
                 Query := [("from_date", Time_String (FromDate r));
                           ("to_date", Time_String (ToDate r));
                           ("group_by", GroupBy r);
                           ("timespan", Timespan r)];
                 ReqHeader := []; ReqBody := "" |}).
Proof. reflexivity. Qed.

(** With a semicolon in place of the comma the tag does hold a [required]
    directive, and the empty value is refused. *)
Lemma semicolon_tag_is_required (req : Net.Request) (w : string) :
  encodeFields req (taggedField "query=group_by;required" true w)
  = inl (ErrMissingField "group_by").
Proof. reflexivity. Qed.

End FacadeProperties.

(* ================================================================= *)
(** ** The client on concrete inputs *)

Import Fixture.

Lemma clientFor_built (srv : Net.Request -> string + Net.Response) :
  clientFor srv = Return (builtClient srv).
Proof. reflexivity. Qed.

(** A body in the wire shape of the error envelope decodes, as [call]
    decodes it, to an envelope without identifier: the key [error] selects
    no field of [APIError]. *)
Lemma nested_envelope_decodes_empty :
  Decode (T := APIError) (envelopeNested "image_missing") zero
  = ({| ID := ""; Message := None; Detail := None |}, None).
Proof. vm_compute. reflexivity. Qed.

(** Decoded as an [ErrorResponse], the struct declared for that shape,
    the same body yields the identifier. *)
Lemma nested_envelope_as_ErrorResponse :
  Decode (T := ErrorResponse) (envelopeNested "image_missing") zero
  = ({| Errors.Error_ := {| ID := "image_missing"; Message := None;
                            Detail := None |} |}, None).
Proof. vm_compute. reflexivity. Qed.

(** Whatever the platform, the schema and the endpoint: a 200 response
    with that body is never returned as an [APIError]. *)
Lemma nested_envelope_never_APIError `{Platform} `{Schema}
    {Request Response : Type} `{Describe Request} `{Unmarshal Response}
    (ctx : Context) (c : Client) (e : endpoint Request Response)
    (request : Request) (param : string) (w : World) (res : Net.Response) :
  responseOf ctx c e request param = Some res ->
  StatusCode res = 200 ->
  Body res = envelopeNested "image_missing" ->
  forall response a,
    snd (call ctx c e request param w) <> Return (response, Some (APIErr a)).
Proof.
  intros Hres Hst Hbody response a.
  rewrite (call_response _ _ _ _ _ _ _ Hres), Hst.
  rewrite Hbody at 1. rewrite nested_envelope_decodes_empty.
  change (((200 <? StatusOK) || (StatusBadRequest <=? 200)
           || isErrorID "")%bool) with false. cbv iota.
  destruct (Decode (Body res) zero) as [r [d |]]; intros [=].
Qed.

(** C2, the code on the input of the scenario: [Image] against a server
    answering 200 with the nested envelope for [image_missing] does not
    return an [APIError]; the body goes on to the decoder of the response
    type, whose outcome (here a type error on the key [error], with an
    allocated response) is what [Image] returns. *)
Theorem Image_nested_envelope :
  snd (Image (builtClient (server 200 (envelopeNested "image_missing")))
             ctx0 (Some tt) world0)
  = Return
      (Some {| RequestID := ""; Text := ""; LatexStyled := ""; HTML := "";
               Fixture.Error_ := ""; Version := "" |},
       Some (DecodeErr (UnmarshalTypeError "error"))).
Proof. vm_compute. reflexivity. Qed.

(** C3, as stated, fails: a token response whose [app_token] is a number
    comes back from [NewClientToken] as an allocated response together
    with an error, and the body [null] comes back as a nil response
    together with a nil error. *)
Lemma call_exactlyOne_fails :
  (exists response err,
      snd (NewClientToken (builtClient (server 200 tokenBodyBadType))
                          ctx0 (Some NewAppTokenRequest) world0)
      = Return (response, err) /\
      err <> None /\ response <> zero /\ ~ exactlyOne response err) /\
  (exists response err,
      snd (NewClientToken (builtClient (server 200 "null"))
                          ctx0 (Some NewAppTokenRequest) world0)
      = Return (response, err) /\
      err = None /\ response = zero /\ ~ exactlyOne response err).
Proof.
  split.
  - exists (Some {| AppToken := ""; StrokesSessionID := "";
                    AppTokenExpiresAt := 0 |}),
           (Some (DecodeErr (UnmarshalTypeError "app_token"))).
    split; [vm_compute; reflexivity |].
    split; [discriminate |]. split; [discriminate |].
    intros [Hz _]. specialize (Hz ltac:(discriminate)). discriminate.
  - exists None, None.
    split; [vm_compute; reflexivity |].
    split; [reflexivity |]. split; [reflexivity |].
    intros [_ Hn]. now apply Hn.
Qed.

(** C5, the code on a request whose [group_by] is empty: the tag of
    [GroupBy] holds no [required] directive, so the request encodes and
    [RequestUsage] sends it, with an empty [group_by], and returns the
    decoded response without an error. *)
Theorem RequestUsage_empty_group_by_is_sent :
  Client_RequestUsage (builtClient (server 200 "{}")) ctx0
                      (Some usageNoGroup) world0
  = (send world0
       {| Method := "POST";
          RequestURL := "https://api.mathpix.com/v3/usage";
          Query := [("from_date", "0"); ("to_date", "0"); ("group_by", "");
                    ("timespan", "day")];
          ReqHeader := [("app_key", "key"); ("app_id", "id");
                        ("Content-Type", "application/json")];
          ReqBody := "" |},
     Return (Some tt, None)).
Proof. vm_compute. reflexivity. Qed.

(** *** The theorems at concrete inputs *)

Lemma inband_error_is_APIError_witness :
  isErrorID "image_missing" = true /\
  snd (call ctx0 (builtClient (server 200 (envelopeFlat "image_missing")))
            (imagesEndpoint (endpoints world0))
            (Some {| Payload := Some tt |}) "" world0)
  = Return (zero,
            Some (APIErr {| ID := "image_missing"; Message := None;
                            Detail := None |})).
Proof.
  split; [reflexivity |].
  apply (inband_error_is_APIError
           (Request := option imageRequestPayload)
           (Response := option ImageResponse)
           ctx0 (builtClient (server 200 (envelopeFlat "image_missing")))
           (imagesEndpoint (endpoints world0))
           (Some {| Payload := Some tt |}) "" world0
           {| StatusCode := 200; Body := envelopeFlat "image_missing" |}
           {| ID := "image_missing"; Message := None; Detail := None |}
           "image_missing").
  - reflexivity.
  - reflexivity.
  - simpl. lia.
  - vm_compute. reflexivity.
  - reflexivity.
Defined.

Lemma bad_status_is_failure_witness :
  exists err,
    snd (call ctx0 (builtClient (server 500 "oops"))
              (getBatchEndpoint (endpoints world0))
              (Some mkGetBatchPayload) "abc123" world0)
    = Return (zero, Some err) /\
    err = DecodeErr SyntaxError.
Proof.
  destruct (bad_status_is_failure
              (Request := option getBatchPayload)
              (Response := option GetBatchResponse)
              ctx0 (builtClient (server 500 "oops"))
              (getBatchEndpoint (endpoints world0))
              (Some mkGetBatchPayload) "abc123" world0
              {| StatusCode := 500; Body := "oops" |})
    as [err [Hcall Herr]].
  - reflexivity.
  - right. simpl. lia.
  - exists err. split; [exact Hcall | exact Herr].
Defined.

Lemma call_surfaces_witness :
  exists res,
    responseOf ctx0 (builtClient (server 200 tokenBodyGood))
               (appTokensEndpoint (endpoints world0))
               (Some {| Payload := Some NewAppTokenRequest |}) "" = Some res /\
    Decode (Body res) zero
    = (Some {| AppToken := "token_1"; StrokesSessionID := "";
               AppTokenExpiresAt := 1700000000 |}, None).
Proof.
  apply (call_surfaces
           (Request := option appTokenPayload)
           (Response := option AppTokenResponse)
           ctx0 (builtClient (server 200 tokenBodyGood))
           (appTokensEndpoint (endpoints world0))
           (Some {| Payload := Some NewAppTokenRequest |}) "" world0
           (Some {| AppToken := "token_1"; StrokesSessionID := "";
                    AppTokenExpiresAt := 1700000000 |})
           None).
  - vm_compute. reflexivity.
  - reflexivity.
Defined.

Lemma endpoint_registry_fixed_witness :
  let c := builtClient (server 200 "{}") in
  sent (worldAfter c ctx0 (CallGetBatch "abc123") world0) = [] \/
  exists req,
    sent (worldAfter c ctx0 (CallGetBatch "abc123") world0) = ([] ++ [req])%list /\
    Method req = "GET" /\
    RequestURL req = "https://api.mathpix.com/v3/batch/abc123".
Proof.
  exact (proj2 (proj2 endpoint_registry_fixed)
               "key" "id" [WithClient (Some (server 200 "{}"))]
               (builtClient (server 200 "{}")) ctx0 (CallGetBatch "abc123") []
               eq_refl).
Defined.

Lemma builder_chain_inRange_witness :
  Expires (applyCalls [CallWithExpiration 500; CallWithStrokesSession]
                      NewAppTokenRequest) <= 300.
Proof.
  apply (builder_chain_inRange [CallWithExpiration 500; CallWithStrokesSession]).
  reflexivity.
Defined.

Lemma WithBaseURL_frame_witness :
  url_Parse badURL = None /\
  baseURL (WithBaseURL badURL (builtClient (server 200 "{}")))
  = baseURL (builtClient (server 200 "{}")).
Proof.
  split; [reflexivity |].
  apply (WithBaseURL_frame badURL (builtClient (server 200 "{}"))).
  reflexivity.
Defined.

(* ================================================================= *)
(** ** Further properties of the code *)

(** *** Error identifiers *)

(** X1: the status code of an identifier is 200, 401 or 429; it is 401
    exactly for [http_unauthorized] and 429 exactly for
    [http_max_requests]; an identifier whose code is not 200 is one that
    [isErrorID] accepts. *)
Theorem HTTPStatusCode_values (e : ErrorID) :
  (HTTPStatusCode e = 200 \/ HTTPStatusCode e = 401 \/ HTTPStatusCode e = 429) /\
  (HTTPStatusCode e = 401 <-> e = ErrHTTPUnauthorized) /\
  (HTTPStatusCode e = 429 <-> e = ErrHTTPMaxRequests) /\
  (HTTPStatusCode e <> 200 -> isErrorID e = true).
Proof.
  unfold HTTPStatusCode.
  destruct (String.eqb_spec e ErrHTTPUnauthorized) as [-> | Hu].
  - split; [now right; left |]. split; [now split |].
    split; [split; discriminate | reflexivity].
  - destruct (String.eqb_spec e ErrHTTPMaxRequests) as [-> | Hm].
    + split; [now right; right |]. split; [split; discriminate |].
      split; [now split | reflexivity].
    + split; [now left |]. split; [split; [discriminate | contradiction] |].
      split; [split; [discriminate | contradiction] |].
      intros Hne. now contradiction Hne.
Qed.

(** *** Token request builders *)

(** Case analysis on the comparisons of a goal, innermost first. *)
Ltac plain t :=
  lazymatch t with
  | context [if _ then _ else _] => fail
  | _ => idtac
  end.

Ltac zcases :=
  repeat (match goal with
          | |- context [?a <? ?b] =>
              plain a; plain b; destruct (Z.ltb_spec a b)
          | H : context [?a <? ?b] |- _ =>
              plain a; plain b; destruct (Z.ltb_spec a b)
          end; cbn in *).

(** X2: the two builders commute: enabling the strokes session after
    setting an expiration gives the same request as setting the expiration
    after enabling the strokes session. *)
Theorem token_builders_commute (s : Z) (r : AppTokenRequest) :
  WithStrokesSession (WithExpiration s r)
  = WithExpiration s (WithStrokesSession r).
Proof.
  unfold WithStrokesSession, WithExpiration; simpl. f_equal.
  destruct (IncludeStrokesSessionID r); zcases; lia.
Qed.

(** X3: a later [WithExpiration] overrides an earlier one, and
    [WithStrokesSession] is idempotent. *)
Theorem token_builders_override (s s' : Z) (r : AppTokenRequest) :
  WithExpiration s (WithExpiration s' r) = WithExpiration s r /\
  WithStrokesSession (WithStrokesSession r) = WithStrokesSession r.
Proof.
  split.
  - reflexivity.
  - unfold WithStrokesSession; simpl. f_equal. zcases; lia.
Qed.

(** X4: [WithStrokesSession] never raises [Expires] and leaves a value of
    at most 300 as it is; [WithExpiration] stores its argument unchanged
    exactly when the argument already lies in the allowed interval. *)
Theorem token_builders_keep_valid (s : Z) (r : AppTokenRequest) :
  Expires (WithStrokesSession r) <= Expires r /\
  (Expires r <= 300 -> Expires (WithStrokesSession r) = Expires r) /\
  (Expires (WithExpiration s r) = s <->
   30 <= s <= (if IncludeStrokesSessionID r then 300 else 43200)).
Proof.
  unfold WithStrokesSession, WithExpiration; simpl.
  split; [zcases; lia |]. split; [intros; zcases; lia |].
  destruct (IncludeStrokesSessionID r); split; intros; zcases; lia.
Qed.

(** *** Image formats *)

Import Formats.

Lemma IsValidExtension_In (f : ImageFormat) (ext : string) :
  IsValidExtension f ext = true <-> In ext (Extensions f).
Proof.
  unfold IsValidExtension. rewrite existsb_exists. split.
  - intros [x [Hin Heq]]. apply String.eqb_eq in Heq. now subst.
  - intros Hin. exists ext. split; [exact Hin | apply String.eqb_refl].
Qed.

Lemma parseFrom_found (fs : list ImageFormat) (ext : string) (f : ImageFormat) :
  parseFrom fs ext = (f, true) ->
  In f fs /\ IsValidExtension f ext = true.
Proof.
  induction fs as [| g fs IH]; simpl; [discriminate |].
  destruct (IsValidExtension g ext) eqn:Hg.
  - intros [= <-]. split; [now left | exact Hg].
  - intros Hp. destruct (IH Hp) as [Hin Hv]. split; [now right | exact Hv].
Qed.

Lemma parseFrom_missing (fs : list ImageFormat) (ext : string) (f : ImageFormat) :
  parseFrom fs ext = (f, false) ->
  f = "" /\ forall g, In g fs -> IsValidExtension g ext = false.
Proof.
  induction fs as [| g fs IH]; simpl.
  - intros [= <-]. split; [reflexivity | contradiction].
  - destruct (IsValidExtension g ext) eqn:Hg; [discriminate |].
    intros Hp. destruct (IH Hp) as [He Hall]. split; [exact He |].
    intros g' [<- | Hin]; [exact Hg | now apply Hall].
Qed.

(** The extension lists of the formats do not overlap: an extension of a
    format is parsed back to that format. *)
Lemma ParseExtension_of_valid (f : ImageFormat) (ext : string) :
  IsValidExtension f ext = true -> ParseExtension ext = (f, true).
Proof.
  rewrite IsValidExtension_In. unfold Extensions.
  repeat match goal with
         | |- context [String.eqb f ?c] =>
             destruct (String.eqb_spec f c) as [-> | _]
         end;
    simpl; intros Hin;
    repeat (destruct Hin as [<- | Hin]; [vm_compute; reflexivity |]);
    contradiction.
Qed.

(** X5: [ParseExtension] succeeds with a format exactly when the extension
    is one of that format's, whatever the format; it fails, with the empty
    format, exactly when no format has the extension. *)
Theorem ParseExtension_correct (ext : string) (f : ImageFormat) :
  (ParseExtension ext = (f, true) <-> IsValidExtension f ext = true) /\
  (ParseExtension ext = (f, false) <->
   f = "" /\ forall g, IsValidExtension g ext = false).
Proof.
  split; split.
  - intros Hp. now apply (parseFrom_found parseOrder).
  - apply ParseExtension_of_valid.
  - intros Hp. destruct (parseFrom_missing parseOrder ext f Hp) as [He _].
    split; [exact He |]. intros g.
    destruct (IsValidExtension g ext) eqn:Hg; [| reflexivity].
    rewrite (ParseExtension_of_valid g ext Hg) in Hp. discriminate.
  - intros [-> Hall].
    destruct (ParseExtension ext) as [g [|]] eqn:Hp.
    + apply (parseFrom_found parseOrder) in Hp. destruct Hp as [_ Hv].
      rewrite Hall in Hv. discriminate.
    + apply (parseFrom_missing parseOrder) in Hp. destruct Hp as [-> _].
      reflexivity.
Qed.

(** X6: an extension [ParseExtension] recognizes begins with a dot, and
    the format it returns is one of the eleven with extensions: never
    [GDAL], never the empty format. *)
Theorem ParseExtension_dotted (ext : string) (f : ImageFormat) :
  ParseExtension ext = (f, true) ->
  (exists rest, ext = String "." rest) /\ f <> GDAL /\ f <> "" /\
  In f parseOrder.
Proof.
  intros Hp. destruct (parseFrom_found parseOrder ext f Hp) as [Hin Hv].
  apply IsValidExtension_In in Hv.
  split; [| split; [| split; [| exact Hin]]].
  - revert Hv. unfold Extensions.
    repeat match goal with
           | |- context [String.eqb f ?c] =>
               destruct (String.eqb_spec f c) as [-> | _]
           end;
      simpl; intros Hv;
      repeat (destruct Hv as [<- | Hv]; [eexists; reflexivity |]);
      contradiction.
  - intros ->. exact Hv.
  - intros ->. exact Hv.
Qed.

(** X7: the only format that is both a valid input format and a valid
    document output format is [docx]. *)
Theorem input_and_output_format (f : string) :
  (InputFormat_IsValid f && DocumentOutputFormat_IsValid f)%bool = true
  <-> f = "docx".
Proof.
  split.
  - intros Hb. apply andb_true_iff in Hb. destruct Hb as [Hi Ho].
    unfold InputFormat_IsValid in Hi. apply existsb_exists in Hi.
    destruct Hi as [x [Hin Heq]]. apply String.eqb_eq in Heq. subst x.
    simpl in Hin.
    repeat (destruct Hin as [<- | Hin];
            [first [reflexivity | discriminate Ho] |]).
    contradiction.
  - intros ->. reflexivity.
Qed.

(** *** Data options *)

Import DataOpts.

Lemma flag_applySetter (s a : Setter) (o : DataOptions) :
  flag s (applySetter o a) = (flag s o || Setter_eqb s a)%bool.
Proof.
  destruct s, a; simpl; rewrite ?orb_true_r, ?orb_false_r; reflexivity.
Qed.

(** X8: after a chain of setters a flag is set exactly when it was set
    before or its setter occurs in the chain: a setter never clears a flag
    and never touches another one.  From [NewDataOptions()] the flags set
    are those of the setters called. *)
Theorem setters_set_their_flags (s : Setter) (ss : list Setter)
    (o : DataOptions) :
  flag s (applySetters ss o) = (flag s o || existsb (Setter_eqb s) ss)%bool /\
  flag s (applySetters ss NewDataOptions) = existsb (Setter_eqb s) ss.
Proof.
  assert (Hgen : forall o', flag s (applySetters ss o')
                            = (flag s o' || existsb (Setter_eqb s) ss)%bool).
  { unfold applySetters. induction ss as [| a ss IH]; intros o'; simpl.
    - now rewrite orb_false_r.
    - rewrite IH, flag_applySetter. now rewrite orb_assoc. }
  split; [apply Hgen |]. rewrite Hgen. now destruct s.
Qed.

(** *** More on the dispatcher *)

Import Observe.

Lemma Header_Get_Set_same (h : Header) (k v : string) :
  Header_Get (Header_Set h k v) k = v.
Proof.
  induction h as [| [k' v'] h IH]; simpl.
  - now rewrite String.eqb_refl.
  - destruct (String.eqb_spec k' k) as [-> | Hne]; simpl.
    + now rewrite String.eqb_refl.
    + destruct (String.eqb_spec k' k); [contradiction | exact IH].
Qed.

Lemma Header_Get_Set_other (h : Header) (k k' v : string) :
  k <> k' -> Header_Get (Header_Set h k v) k' = Header_Get h k'.
Proof.
  intros Hne. induction h as [| [k0 v0] h IH]; simpl.
  - destruct (String.eqb_spec k k'); [contradiction | reflexivity].
  - destruct (String.eqb_spec k0 k) as [-> | Hk]; simpl.
    + destruct (String.eqb_spec k k'); [contradiction | reflexivity].
    + destruct (String.eqb_spec k0 k'); [reflexivity | exact IH].
Qed.

Section MoreCallProperties.
Context `{Platform} `{Schema}.
Context {Request Response : Type} `{Describe Request} `{Unmarshal Response}.

Implicit Types (c : Client) (e : endpoint Request Response)
  (request : Request) (param : string) (w : World) (ctx : Context).

(** X9: a response whose status lies in 200..399 and whose body decodes
    to an envelope with an identifier [isErrorID] does not accept (the
    empty one included) is a success: [call] returns what decoding the
    same body into the response type gives, and no error when that
    decoding reports none. *)
Theorem call_success ctx c e request param w res apiErr response :
  responseOf ctx c e request param = Some res ->
  200 <= StatusCode res <= 399 ->
  Decode (Body res) zero = (apiErr, None) ->
  isErrorID (ID apiErr) = false ->
  Decode (Body res) zero = (response, None) ->
  snd (call ctx c e request param w) = Return (response, None).
Proof.
  intros Hres Hst Henv Hid Hdec.
  rewrite (call_response _ _ _ _ _ _ _ Hres), Henv, Hid, Hdec.
  unfold StatusOK, StatusBadRequest.
  destruct (Z.ltb_spec (StatusCode res) 200); [lia |].
  destruct (Z.leb_spec 400 (StatusCode res)); [lia |]. reflexivity.
Qed.

(** X10: once the body has decoded to an envelope, [call] returns an
    [APIError] exactly when the status lies outside 200..399 or
    [isErrorID] accepts the identifier of the envelope; the [APIError] is
    then that envelope. *)
Theorem call_classification ctx c e request param w res apiErr :
  responseOf ctx c e request param = Some res ->
  Decode (Body res) zero = (apiErr, None) ->
  ((exists response a,
       snd (call ctx c e request param w)
       = Return (response, Some (APIErr a))) <->
   (StatusCode res < 200 \/ 399 < StatusCode res
    \/ isErrorID (ID apiErr) = true)) /\
  (forall response a,
      snd (call ctx c e request param w) = Return (response, Some (APIErr a)) ->
      a = apiErr /\ response = zero).
Proof.
  intros Hres Henv.
  rewrite (call_response _ _ _ _ _ _ _ Hres), Henv.
  assert (Hcond : ((StatusCode res <? StatusOK)
                   || (StatusBadRequest <=? StatusCode res)
                   || isErrorID (ID apiErr))%bool = true <->
                  (StatusCode res < 200 \/ 399 < StatusCode res
                   \/ isErrorID (ID apiErr) = true)).
  { unfold StatusOK, StatusBadRequest.
    rewrite !orb_true_iff, Z.ltb_lt, Z.leb_le. intuition lia. }
  destruct ((StatusCode res <? StatusOK)
            || (StatusBadRequest <=? StatusCode res)
            || isErrorID (ID apiErr))%bool.
  - split.
    + split; [intros _; now apply Hcond | intros _; now exists zero, apiErr].
    + intros response a [= <- <-]. now split.
  - destruct (Decode (T := Response) (Body res) zero) as [r [d |]].
    + split; [split |];
        [intros [x [a Hx]]; discriminate Hx | | intros x a Hx; discriminate Hx].
      intros Hc. apply Hcond in Hc. discriminate.
    + split; [split |];
        [intros [x [a Hx]]; discriminate Hx | | intros x a Hx; discriminate Hx].
      intros Hc. apply Hcond in Hc. discriminate.
Qed.

(** X11: a body that is no JSON value is an error whatever the status: the
    call returns the decoder's error and the zero response; a body that is
    empty or only white space gives [io.EOF]. *)
Theorem call_undecodable_body ctx c e request param w res :
  responseOf ctx c e request param = Some res ->
  (forall d, nextValue (Body res) = inl d ->
             snd (call ctx c e request param w)
             = Return (zero, Some (DecodeErr d))) /\
  (skipSpace (list_ascii_of_string (Body res)) = [] ->
   snd (call ctx c e request param w) = Return (zero, Some (DecodeErr EOF))).
Proof.
  intros Hres.
  assert (Hgen : forall d, nextValue (Body res) = inl d ->
                           snd (call ctx c e request param w)
                           = Return (zero, Some (DecodeErr d))).
  { intros d Hd. rewrite (call_response _ _ _ _ _ _ _ Hres).
    unfold Decode. now rewrite Hd. }
  split; [exact Hgen |].
  intros Hsp. apply Hgen. unfold nextValue. now rewrite Hsp.
Qed.

(** X12: when the HTTP client fails, [call] returns the transport error
    with the zero response, having handed the client exactly the one wire
    request; nothing is decoded. *)
Theorem call_transport_error ctx c e request param w req cl err :
  wireRequest c e request param = Some req ->
  client c = Some cl ->
  Do cl ctx req = inl err ->
  call ctx c e request param w
  = (send w req, Return (zero, Some (TransportErr err))).
Proof.
  unfold wireRequest, call.
  destruct (NewRequestWithContext _ _ _) as [[x | httpReq] |];
    [discriminate | | discriminate].
  destruct (SetCommonHeaders c) as [set |]; [| discriminate].
  intros [= <-] -> Hdo. now rewrite Hdo.
Qed.

(** X13: a call hands the HTTP client one request, its wire request, when
    encoding succeeded and neither the header hook nor the client is nil,
    and none otherwise; the requests sent before stay as they were, and
    so do the endpoint variables. *)
Theorem call_one_round_trip ctx c e request param w :
  sent (fst (call ctx c e request param w)) =
  match wireRequest c e request param, client c with
  | Some req, Some _ => (sent w ++ [req])%list
  | _, _ => sent w
  end /\
  endpoints (fst (call ctx c e request param w)) = endpoints w.
Proof.
  split; [| apply call_endpoints].
  unfold call, wireRequest.
  destruct (NewRequestWithContext _ _ _) as [[err | httpReq] |];
    [reflexivity | | reflexivity].
  destruct (SetCommonHeaders c); [| reflexivity].
  destruct (client c); [| reflexivity].
  destruct (Do _ _ _) as [err | res]; [reflexivity |].
  destruct (nopDecode (Body res)) as [[[resp |] apiErr] [err |]];
    try reflexivity.
  destruct (_ || _ || _)%bool; [reflexivity |].
  destruct (Decode resp zero) as [out [err |]]; reflexivity.
Qed.

(** X15: the wire request of a client built by [NewClient] carries the
    client's key under [app_key] and its identifier under [app_id],
    whatever the encoder put there, and a content type: the encoder's when
    it set one, [application/json] when it set none. *)
Theorem wireRequest_headers key id opts c e request param httpReq req :
  NewClient key id opts = Return c ->
  NewRequestWithContext (method e)
    (URL_String (JoinPath (baseURL c) [name e; param])) request
  = Some (inr httpReq) ->
  wireRequest c e request param = Some req ->
  Header_Get (ReqHeader req) "app_key" = apiKey c /\
  Header_Get (ReqHeader req) "app_id" = appID c /\
  Header_Get (ReqHeader req) "Content-Type" =
  (if String.eqb (Header_Get (ReqHeader httpReq) "Content-Type") ""
   then "application/json"
   else Header_Get (ReqHeader httpReq) "Content-Type").
Proof.
  unfold NewClient. destruct (url_Parse _) as [u |]; [| discriminate].
  intros [= <-]. unfold wireRequest; simpl. intros ->.
  rewrite (Header_Get_Set_other _ "app_id" "Content-Type") by discriminate.
  rewrite (Header_Get_Set_other _ "app_key" "Content-Type") by discriminate.
  destruct (String.eqb_spec (Header_Get (ReqHeader httpReq) "Content-Type") "")
    as [He | Hne]; intros [= <-]; simpl.
  - rewrite (Header_Get_Set_other _ "Content-Type" "app_key") by discriminate.
    rewrite (Header_Get_Set_other _ "Content-Type" "app_id") by discriminate.
    rewrite (Header_Get_Set_other _ "app_id" "app_key") by discriminate.
    now rewrite !Header_Get_Set_same.
  - rewrite (Header_Get_Set_other _ "app_id" "app_key") by discriminate.
    rewrite (Header_Get_Set_other _ "app_id" "Content-Type") by discriminate.
    rewrite (Header_Get_Set_other _ "app_key" "Content-Type") by discriminate.
    now rewrite !Header_Get_Set_same.
Qed.

(** X16: a call through a client built by [NewClient] whose HTTP client is
    not nil panics exactly when the encoder does; past the encoder it
    always returns. *)
Theorem call_panics_only_in_encoder key id opts ctx c e request param w :
  NewClient key id opts = Return c ->
  client c <> None ->
  (panicked (snd (call ctx c e request param w)) = true <->
   NewRequestWithContext (method e)
     (URL_String (JoinPath (baseURL c) [name e; param])) request = None).
Proof.
  unfold NewClient. destruct (url_Parse _) as [u |]; [| discriminate].
  intros [= <-]. simpl. intros Hcl. unfold call; simpl.
  destruct (NewRequestWithContext _ _ _) as [[err | httpReq] |];
    [split; discriminate | | split; reflexivity].
  destruct (client _) as [cl |]; [| contradiction].
  destruct (Do _ _ _) as [err | res]; [split; discriminate |].
  unfold nopDecode.
  destruct (Decode (T := APIError) (Body res) zero) as [apiErr [d |]];
    [split; discriminate |].
  destruct (_ || _ || _)%bool; [split; discriminate |].
  destruct (Decode (T := Response) (Body res) zero) as [out [d |]];
    split; discriminate.
Qed.

End MoreCallProperties.

(** *** More on the client and the facade *)

Section ClientProperties.
Context `{Platform} `{Schema}.

Lemma fold_options (names : list OptionName) :
  forall c0 : Client,
    let c := fold_left (fun c opt => opt c) (map optionOf names) c0 in
    apiKey c = apiKey c0 /\ appID c = appID c0 /\
    client c =
    fold_left (fun acc o => match o with OptClient cl => cl | _ => acc end)
              names (client c0) /\
    logger c =
    fold_left (fun acc o => match o with OptLogger l => l | _ => acc end)
              names (logger c0).
Proof.
  induction names as [| o names IH]; intros c0; simpl.
  - repeat split.
  - destruct (IH (optionOf o c0)) as [Hk [Hi [Hc Hl]]].
    simpl in Hk, Hi, Hc, Hl. rewrite Hk, Hi, Hc, Hl.
    destruct o as [s | l | cl]; simpl; try (repeat split; fail).
    unfold WithBaseURL. destruct (url_Parse s); repeat split.
Qed.

(** X17: the options of the package never touch the credentials, and of
    several options for one field the last one wins: a client built by
    [NewClient] from such options has the key and identifier given to
    [NewClient], the HTTP client and logger named last (the default
    client and no logger when none is named), and a header hook. *)
Theorem NewClient_fields key id (names : list OptionName) c :
  NewClient key id (map optionOf names) = Return c ->
  apiKey c = key /\ appID c = id /\
  client c = chosenClient names /\
  logger c = chosenLogger names /\
  SetCommonHeaders c <> None.
Proof.
  unfold NewClient. destruct (url_Parse _) as [u |]; [| discriminate].
  intros [= <-]; simpl.
  destruct (fold_options names
              {| apiKey := key; appID := id; baseURL := u;
                 client := Some DefaultClient; logger := None;
                 SetCommonHeaders := None |}) as [Hk [Hi [Hc Hl]]].
  simpl in Hk, Hi, Hc, Hl.
  repeat split; try assumption. discriminate.
Qed.


End ClientProperties.

(** *** The further properties at concrete inputs *)

Lemma HTTPStatusCode_values_witness : isErrorID ErrHTTPMaxRequests = true.
Proof.
  apply (HTTPStatusCode_values ErrHTTPMaxRequests). discriminate.
Defined.

Lemma token_builders_keep_valid_witness :
  Expires NewAppTokenRequest <= 300 /\
  Expires (WithStrokesSession NewAppTokenRequest) = Expires NewAppTokenRequest.
Proof.
  split; [simpl; lia |].
  apply (token_builders_keep_valid 0 NewAppTokenRequest). simpl. lia.
Defined.

Lemma ParseExtension_correct_witness :
  IsValidExtension JPEG ".jpg" = true /\ ParseExtension ".jpg" = (JPEG, true).
Proof.
  split; [reflexivity |].
  apply (ParseExtension_correct ".jpg" JPEG). reflexivity.
Defined.

Lemma ParseExtension_dotted_witness :
  ParseExtension ".tif" = (TIFF, true) /\
  (exists rest, ".tif" = String "." rest) /\ TIFF <> GDAL /\ TIFF <> "" /\
  In TIFF parseOrder.
Proof.
  split; [reflexivity |].
  apply (ParseExtension_dotted ".tif" TIFF). reflexivity.
Defined.

Lemma input_and_output_format_witness :
  (InputFormat_IsValid "docx" && DocumentOutputFormat_IsValid "docx")%bool
  = true.
Proof.
  apply (input_and_output_format "docx"). reflexivity.
Defined.

Lemma call_success_witness :
  snd (call ctx0 (builtClient (server 200 tokenBodyGood))
            (appTokensEndpoint (endpoints world0))
            (Some {| Payload := Some NewAppTokenRequest |}) "" world0)
  = Return (Some {| AppToken := "token_1"; StrokesSessionID := "";
                    AppTokenExpiresAt := 1700000000 |}, None).
Proof.
  apply (call_success
           (Request := option appTokenPayload)
           (Response := option AppTokenResponse)
           ctx0 (builtClient (server 200 tokenBodyGood))
           (appTokensEndpoint (endpoints world0))
           (Some {| Payload := Some NewAppTokenRequest |}) "" world0
           {| StatusCode := 200; Body := tokenBodyGood |}
           {| ID := ""; Message := None; Detail := None |}).
  - reflexivity.
  - simpl. lia.
  - vm_compute. reflexivity.
  - reflexivity.
  - vm_compute. reflexivity.
Defined.

Lemma call_classification_witness :
  exists response a,
    snd (call ctx0 (builtClient (server 302 (envelopeFlat "pdf_missing")))
              (documentsEndpoint (endpoints world0))
              (Some {| Payload := Some tt |}) "" world0)
    = Return (response, Some (APIErr a)).
Proof.
  apply (call_classification
           (Request := option documentRequestPayload)
           (Response := option ResponseDocument)
           ctx0 (builtClient (server 302 (envelopeFlat "pdf_missing")))
           (documentsEndpoint (endpoints world0))
           (Some {| Payload := Some tt |}) "" world0
           {| StatusCode := 302; Body := envelopeFlat "pdf_missing" |}
           {| ID := "pdf_missing"; Message := None; Detail := None |}).
  - reflexivity.
  - vm_compute. reflexivity.
  - right. right. reflexivity.
Defined.

Lemma call_undecodable_body_witness :
  snd (call ctx0 (builtClient (server 204 ""))
            (batchEndpoint (endpoints world0))
            (Some {| Payload := Some tt |}) "" world0)
  = Return (zero, Some (DecodeErr EOF)).
Proof.
  apply (call_undecodable_body
           (Request := option postBatchRequestPayload)
           (Response := option ResponsePostBatch)
           ctx0 (builtClient (server 204 ""))
           (batchEndpoint (endpoints world0))
           (Some {| Payload := Some tt |}) "" world0
           {| StatusCode := 204; Body := "" |}).
  - reflexivity.
  - reflexivity.
Defined.

Lemma call_transport_error_witness :
  call ctx0 (builtClient (fun _ => inl "timeout"))
       (getBatchEndpoint (endpoints world0))
       (Some mkGetBatchPayload) "abc123" world0
  = (send world0
       {| Method := "GET";
          RequestURL := "https://api.mathpix.com/v3/batch/abc123";
          Query := [];
          ReqHeader := [("app_key", "key"); ("app_id", "id");
                        ("Content-Type", "application/json")];
          ReqBody := "" |},
     Return (None, Some (TransportErr ("timeout" : TransportError)))).
Proof.
  exact (call_transport_error
           (Request := option getBatchPayload)
           (Response := option GetBatchResponse)
           ctx0 (builtClient (fun _ => inl "timeout"))
           (getBatchEndpoint (endpoints world0))
           (Some mkGetBatchPayload) "abc123" world0
           {| Method := "GET";
              RequestURL := "https://api.mathpix.com/v3/batch/abc123";
              Query := [];
              ReqHeader := [("app_key", "key"); ("app_id", "id");
                            ("Content-Type", "application/json")];
              ReqBody := "" |}
           (fun _ => inl "timeout") "timeout"
           eq_refl eq_refl eq_refl).
Defined.

Lemma wireRequest_headers_witness :
  exists req,
    wireRequest (builtClient (server 200 "{}"))
                (imagesEndpoint (endpoints world0))
                (Some {| Payload := Some tt |}) "" = Some req /\
    Header_Get (ReqHeader req) "app_key" = "key" /\
    Header_Get (ReqHeader req) "app_id" = "id" /\
    Header_Get (ReqHeader req) "Content-Type" = "application/json".
Proof.
  eexists. split; [reflexivity |].
  apply (wireRequest_headers
           (H := platform)
           (Request := option imageRequestPayload)
           (Response := option ImageResponse)
           "key" "id" [WithClient (H := platform) (Some (server 200 "{}"))]
           (builtClient (server 200 "{}"))
           (imagesEndpoint (endpoints world0))
           (Some {| Payload := Some tt |}) ""
           {| Method := "POST";
              RequestURL := "https://api.mathpix.com/v3/image";
              Query := []; ReqHeader := []; ReqBody := "{}" |}).
  - reflexivity.
  - reflexivity.
  - reflexivity.
Defined.

Lemma call_panics_only_in_encoder_witness :
  panicked (snd (call ctx0 (builtClient (server 200 "{}"))
                      (conversionStatusEndpoint (endpoints world0))
                      None "pdf_1" world0)) = true.
Proof.
  apply (call_panics_only_in_encoder
           (H := platform) (H0 := schema)
           (Request := option resultRequestPayload)
           (Response := option ResponseConversionResult)
           "key" "id" [WithClient (H := platform) (Some (server 200 "{}"))]
           ctx0 (builtClient (server 200 "{}"))).
  - reflexivity.
  - discriminate.
  - reflexivity.
Defined.

Lemma NewClient_fields_witness :
  let names := [OptClient (H := platform) None; OptBaseURL badURL;
                OptClient (H := platform) (Some (server 200 "{}"))] in
  let c := builtClient (server 200 "{}") in
  apiKey c = "key" /\ appID c = "id" /\
  client c = chosenClient names /\
  logger c = chosenLogger names /\
  SetCommonHeaders c <> None.
Proof.
  apply (NewClient_fields
           (H := platform)
           "key" "id"
           [OptClient (H := platform) None; OptBaseURL badURL;
            OptClient (H := platform) (Some (server 200 "{}"))]
           (builtClient (server 200 "{}"))).
  reflexivity.
Defined.
